(** * caljson: the event time-window extractor

    A shallow embedding of [src/main.go] (the net/http variant) and of
    [src/unnamed/part_000] (the gin variant) of the caljson service, and the
    properties its specification states about them.

    Layout of the development:
    - [strings], [time], [ics]: the parts of the Go standard library and of
      [github.com/arran4/golang-ical] that the program calls, as executable
      models;
    - the program: [parseICalTime], [parseEvent], the batch loop and the sort
      of [caljsonHandler];
    - sample calendars and zones;
    - the theorems. *)

From Stdlib Require Import ZArith String Ascii List Bool Lia.
From Stdlib Require Import Sorting.Sorted Sorting.Permutation.
From stdpp Require Import base option gmap strings.

Local Open Scope string_scope.
Local Open Scope Z_scope.
Import ListNotations.

(** ** Errors and fallible calls

    A Go call returning [(T, error)] is a value of [result T]; the sequence
    [x, err := f(); if err != nil { return nil, err }] is [x ← f; k]. *)

Inductive error : Type :=
| errorString (msg : string)                     (* fmt.Errorf / errors.New *)
| ParseError (layout value msg : string)         (* *time.ParseError *)
| errLocation                                     (* time: invalid location name *)
| errUnknownTimeZone (name : string).            (* time: unknown time zone ... *)

Inductive result (A : Type) : Type :=
| Ok (a : A)
| Err (e : error).
Arguments Ok {A} a.
Arguments Err {A} e.

#[global] Instance result_ret : MRet result := @Ok.
#[global] Instance result_bind : MBind result :=
  fun A B (k : A -> result B) (r : result A) =>
    match r with
    | Ok a => k a
    | Err e => Err e
    end.

(** ** Package strings *)

Module strings.

(** [strings.HasSuffix]:
    [len(s) >= len(suffix) && s[len(s)-len(suffix):] == suffix]. *)
Definition HasSuffix (s suffix : string) : bool :=
  let n := String.length s in
  let m := String.length suffix in
  (m <=? n)%nat && String.eqb (substring (n - m) m s) suffix.

End strings.

(** ** Package time

    Instants are counted in nanoseconds since the Unix epoch, as an unbounded
    integer; a [Time] carries its instant and the [Location] it is to be
    rendered in.  Comparisons ([Before], [After]) look at the instant only,
    as in Go. *)

Module time.

(** A [Duration] is a count of nanoseconds. *)
Definition Duration := Z.
Definition Nanosecond : Duration := 1.
Definition Second : Duration := 1000000000 * Nanosecond.
Definition Minute : Duration := 60 * Second.
Definition Hour : Duration := 60 * Minute.

(** A [Location] maps an instant (Unix seconds) to the offset east of UTC,
    in seconds, in force at that instant. *)
Record Location : Type := mkLocation {
  locName : string;
  lookup : Z -> Z
}.

Definition UTC : Location := mkLocation "UTC" (fun _ => 0).

Definition FixedZone (name : string) (offset : Z) : Location :=
  mkLocation name (fun _ => offset).

Record Time : Type := mkTime {
  unixNano : Z;
  loc : Location
}.

Definition unixSec (t : Time) : Z := unixNano t / Second.

Definition Before (t u : Time) : bool := unixNano t <? unixNano u.
Definition After (t u : Time) : bool := unixNano t >? unixNano u.
Definition Equal (t u : Time) : bool := unixNano t =? unixNano u.

Definition Add (t : Time) (d : Duration) : Time :=
  mkTime (unixNano t + d) (loc t).

(** [t.In(loc)]: the same instant, with the location set to [loc]. *)
Definition In (t : Time) (l : Location) : Time :=
  mkTime (unixNano t) l.

(** *** The civil calendar *)

Definition isLeap (year : Z) : bool :=
  (year mod 4 =? 0) && (negb (year mod 100 =? 0) || (year mod 400 =? 0)).

(** Days before the first of each month in a non-leap year. *)
Definition daysBefore (month : Z) : Z :=
  match month with
  | 1 => 0 | 2 => 31 | 3 => 59 | 4 => 90 | 5 => 120 | 6 => 151
  | 7 => 181 | 8 => 212 | 9 => 243 | 10 => 273 | 11 => 304 | 12 => 334
  | _ => 365
  end.

Definition daysIn (month year : Z) : Z :=
  if (month =? 2) && isLeap year then 29
  else daysBefore (month + 1) - daysBefore month.

(** Leap years among the years 1 .. [year]. *)
Definition leapsThrough (year : Z) : Z :=
  year / 4 - year / 100 + year / 400.

(** Days from 1970-01-01 to the first of January of [year]. *)
Definition daysSinceEpoch (year : Z) : Z :=
  365 * (year - 1970) + (leapsThrough (year - 1) - leapsThrough 1969).

(** [time.Date]: month, day, hour, minute, second and nanosecond may be
    out of their usual ranges and are normalised, the wall-clock reading is
    then taken in [l]: the offset is looked up at the reading taken as UTC,
    and looked up again at the instant this gives. *)
Definition Date (year month day hour min sec nsec : Z) (l : Location) : Time :=
  let m := month - 1 in
  let year := year + m / 12 in
  let month := m mod 12 + 1 in
  let d := daysSinceEpoch year + daysBefore month
           + (if isLeap year && (3 <=? month) then 1 else 0)
           + (day - 1) in
  let unix := d * 86400 + hour * 3600 + min * 60 + sec + nsec / 1000000000 in
  let nsec := nsec mod 1000000000 in
  let offset := lookup l (unix - lookup l unix) in
  mkTime ((unix - offset) * 1000000000 + nsec) l.

(** The civil date of a day count since 1970-01-01. *)
Definition civilOfDays (days : Z) : Z * Z * Z :=
  let z := days + 719468 in
  let era := z / 146097 in
  let doe := z - era * 146097 in
  let yoe := (doe - doe / 1460 + doe / 36524 - doe / 146096) / 365 in
  let doy := doe - (365 * yoe + yoe / 4 - yoe / 100) in
  let mp := (5 * doy + 2) / 153 in
  let d := doy - (153 * mp + 2) / 5 + 1 in
  let m := if mp <? 10 then mp + 3 else mp - 9 in
  let y := yoe + era * 400 + (if m <=? 2 then 1 else 0) in
  (y, m, d).

(** Seconds of the wall clock of [t] in its own location. *)
Definition abs (t : Time) : Z := unixSec t + lookup (loc t) (unixSec t).

Definition date (t : Time) : Z * Z * Z := civilOfDays (abs t / 86400).
Definition Year (t : Time) : Z := fst (fst (date t)).
Definition Month (t : Time) : Z := snd (fst (date t)).
Definition Day (t : Time) : Z := snd (date t).

Definition AddDate (t : Time) (years months days : Z) : Time :=
  let '(year, month, day) := date t in
  let secs := abs t mod 86400 in
  Date (year + years) (month + months) (day + days)
       (secs / 3600) (secs mod 3600 / 60) (secs mod 60)
       (unixNano t mod 1000000000) (loc t).

(** *** Parsing

    The layouts the program uses are made of the elements [2006], [01],
    [02], [15], [04], [05] and of literal bytes; [layoutChunks] cuts a
    layout into these.  (A [Z] is an element only when [0700] follows.) *)

Inductive chunk : Type :=
| stdLongYear | stdZeroMonth | stdZeroDay
| stdHour | stdZeroMinute | stdZeroSecond
| stdISO8601TZ
| literal (c : ascii).

Fixpoint layoutChunks (fuel : nat) (layout : string) : list chunk :=
  match fuel with
  | O => []
  | S fuel =>
    if String.prefix "2006" layout then
      stdLongYear :: layoutChunks fuel (substring 4 (String.length layout - 4) layout)
    else if String.prefix "01" layout then
      stdZeroMonth :: layoutChunks fuel (substring 2 (String.length layout - 2) layout)
    else if String.prefix "02" layout then
      stdZeroDay :: layoutChunks fuel (substring 2 (String.length layout - 2) layout)
    else if String.prefix "15" layout then
      stdHour :: layoutChunks fuel (substring 2 (String.length layout - 2) layout)
    else if String.prefix "04" layout then
      stdZeroMinute :: layoutChunks fuel (substring 2 (String.length layout - 2) layout)
    else if String.prefix "05" layout then
      stdZeroSecond :: layoutChunks fuel (substring 2 (String.length layout - 2) layout)
    else if String.prefix "Z0700" layout then
      stdISO8601TZ :: layoutChunks fuel (substring 5 (String.length layout - 5) layout)
    else
      match layout with
      | EmptyString => []
      | String c rest => literal c :: layoutChunks fuel rest
      end
  end.

Definition digitVal (c : ascii) : option Z :=
  let n := Z.of_nat (nat_of_ascii c) in
  if (48 <=? n) && (n <=? 57) then Some (n - 48) else None.

Definition isDigit (c : ascii) : bool :=
  match digitVal c with
  | Some _ => true
  | None => false
  end.

(** [getnum]: one or two digits; exactly two when [fixed]. *)
Definition getnum (s : string) (fixed : bool) : option (Z * string) :=
  match s with
  | EmptyString => None
  | String c0 s1 =>
    match digitVal c0 with
    | None => None
    | Some d0 =>
      match s1 with
      | String c1 s2 =>
        match digitVal c1 with
        | Some d1 => Some (d0 * 10 + d1, s2)
        | None => if fixed then None else Some (d0, s1)
        end
      | EmptyString => if fixed then None else Some (d0, s1)
      end
    end
  end.

(** The four digits of a [2006] element. *)
Definition getyear (s : string) : option (Z * string) :=
  match s with
  | String c0 (String c1 (String c2 (String c3 rest))) =>
    match digitVal c0, digitVal c1, digitVal c2, digitVal c3 with
    | Some d0, Some d1, Some d2, Some d3 =>
      Some (d0 * 1000 + d1 * 100 + d2 * 10 + d3, rest)
    | _, _, _, _ => None
    end
  | _ => None
  end.

(** The leading digits of [s], and what follows them. *)
Fixpoint leadingDigits (s : string) : list Z * string :=
  match s with
  | String c rest =>
    match digitVal c with
    | Some d => let '(ds, r) := leadingDigits rest in (d :: ds, r)
    | None => ([], s)
    end
  | EmptyString => ([], s)
  end.

(** A fraction of a second written after [.] or [,] is read even though
    the layout has none: at most nine digits count, all are consumed. *)
Definition fracNanos (ds : list Z) : Z :=
  let kept := firstn 9 ds in
  fold_left (fun acc d => acc * 10 + d) kept 0
  * 10 ^ (9 - Z.of_nat (List.length kept)).

Definition commaOrPeriod (c : ascii) : bool :=
  Ascii.eqb c "." || Ascii.eqb c ",".

Definition getfrac (s : string) : Z * string :=
  match s with
  | String c0 (String c1 rest) =>
    if commaOrPeriod c0 && isDigit c1 then
      let '(ds, r) := leadingDigits (String c1 rest) in (fracNanos ds, r)
    else (0, s)
  | _ => (0, s)
  end.

(** What has been read so far. *)
Record fields : Type := mkFields {
  f_year : Z; f_month : Z; f_day : Z;
  f_hour : Z; f_min : Z; f_sec : Z; f_nsec : Z;
  f_z : option Location;          (* a literal Z was read for Z0700 *)
  f_zoneOffset : option Z         (* a numeric offset was read for Z0700 *)
}.

Definition fields0 : fields := mkFields 0 1 1 0 0 0 0 None None.

Section Parse.
Variables (alayout avalue : string).

Definition errBad : error := ParseError alayout avalue "".
Definition errRange (what : string) : error :=
  ParseError alayout avalue (": " ++ what ++ " out of range").

Definition parseOffset (value : string) : option (Z * string) :=
  match value with
  | String sign rest =>
    match getnum rest true with
    | Some (hr, rest) =>
      match getnum rest true with
      | Some (mm, rest) =>
        if Ascii.eqb sign "+" then Some ((hr * 60 + mm) * 60, rest)
        else if Ascii.eqb sign "-" then Some (- ((hr * 60 + mm) * 60), rest)
        else None
      | None => None
      end
    | None => None
    end
  | EmptyString => None
  end.

Definition parseChunk (c : chunk) (f : fields) (value : string)
  : result (fields * string) :=
  match c with
  | literal ch =>
    match value with
    | String v rest =>
      if Ascii.eqb v ch then Ok (f, rest) else Err errBad
    | EmptyString => Err errBad
    end
  | stdLongYear =>
    match getyear value with
    | Some (y, rest) =>
      Ok (mkFields y (f_month f) (f_day f) (f_hour f) (f_min f) (f_sec f)
                   (f_nsec f) (f_z f) (f_zoneOffset f), rest)
    | None => Err errBad
    end
  | stdZeroMonth =>
    match getnum value true with
    | Some (m, rest) =>
      if (m <=? 0) || (12 <? m) then Err (errRange "month")
      else Ok (mkFields (f_year f) m (f_day f) (f_hour f) (f_min f)
                        (f_sec f) (f_nsec f) (f_z f) (f_zoneOffset f), rest)
    | None => Err errBad
    end
  | stdZeroDay =>
    (* any two digits; the day is checked against the month at the end *)
    match getnum value true with
    | Some (d, rest) =>
      Ok (mkFields (f_year f) (f_month f) d (f_hour f) (f_min f) (f_sec f)
                   (f_nsec f) (f_z f) (f_zoneOffset f), rest)
    | None => Err errBad
    end
  | stdHour =>
    match getnum value false with
    | Some (h, rest) =>
      if (h <? 0) || (24 <=? h) then Err (errRange "hour")
      else Ok (mkFields (f_year f) (f_month f) (f_day f) h (f_min f)
                        (f_sec f) (f_nsec f) (f_z f) (f_zoneOffset f), rest)
    | None => Err errBad
    end
  | stdZeroMinute =>
    match getnum value true with
    | Some (m, rest) =>
      if (m <? 0) || (60 <=? m) then Err (errRange "minute")
      else Ok (mkFields (f_year f) (f_month f) (f_day f) (f_hour f) m
                        (f_sec f) (f_nsec f) (f_z f) (f_zoneOffset f), rest)
    | None => Err errBad
    end
  | stdZeroSecond =>
    match getnum value true with
    | Some (s, rest) =>
      if (s <? 0) || (60 <=? s) then Err (errRange "second")
      else
        let '(ns, rest) := getfrac rest in
        Ok (mkFields (f_year f) (f_month f) (f_day f) (f_hour f) (f_min f)
                     s ns (f_z f) (f_zoneOffset f), rest)
    | None => Err errBad
    end
  | stdISO8601TZ =>
    match value with
    | String "Z" rest =>
      Ok (mkFields (f_year f) (f_month f) (f_day f) (f_hour f) (f_min f)
                   (f_sec f) (f_nsec f) (Some UTC) (f_zoneOffset f), rest)
    | _ =>
      match parseOffset value with
      | Some (off, rest) =>
        Ok (mkFields (f_year f) (f_month f) (f_day f) (f_hour f) (f_min f)
                     (f_sec f) (f_nsec f) (f_z f) (Some off), rest)
      | None => Err errBad
      end
    end
  end.

Fixpoint parseChunks (cs : list chunk) (f : fields) (value : string)
  : result fields :=
  match cs with
  | [] =>
    match value with
    | EmptyString => Ok f
    | _ => Err (ParseError alayout avalue (": extra text: " ++ value))
    end
  | c :: cs =>
    '(f, value) ← parseChunk c f value;
    parseChunks cs f value
  end.

(** [parse]: [defaultLocation] is used when the value names no zone,
    [local] when it gives an offset that [local] has at that instant. *)
Definition parse (defaultLocation local : Location) : result Time :=
  f ← parseChunks (layoutChunks (S (String.length alayout)) alayout)
                  fields0 avalue;
  if (f_day f <? 1) || (daysIn (f_month f) (f_year f) <? f_day f) then
    Err (ParseError alayout avalue ": day out of range")
  else
    match f_z f, f_zoneOffset f with
    | Some z, _ =>
      Ok (Date (f_year f) (f_month f) (f_day f) (f_hour f) (f_min f)
               (f_sec f) (f_nsec f) z)
    | None, Some zoneOffset =>
      let t := Date (f_year f) (f_month f) (f_day f) (f_hour f) (f_min f)
                    (f_sec f) (f_nsec f) UTC in
      let t := Add t (- zoneOffset * Second) in
      if lookup local (unixSec t) =? zoneOffset then Ok (In t local)
      else Ok (In t (FixedZone "" zoneOffset))
    | None, None =>
      Ok (Date (f_year f) (f_month f) (f_day f) (f_hour f) (f_min f)
               (f_sec f) (f_nsec f) defaultLocation)
    end.
End Parse.

(** [time.ParseInLocation(layout, value, loc)]. *)
Definition ParseInLocation (layout value : string) (l : Location) : result Time :=
  parse layout value l l.

(** *** The zones of the process

    [Local] is the zone of the process and [zoneinfo] the installed zone
    database; both belong to the environment the program runs in. *)
Section Zones.
Variable Local : Location.
Variable zoneinfo : string -> option Location.

(** [time.Parse(layout, value)]. *)
Definition Parse (layout value : string) : result Time :=
  parse layout value UTC Local.

Fixpoint containsDotDot (s : string) : bool :=
  match s with
  | String "." (String "." _) => true
  | String _ rest => containsDotDot rest
  | EmptyString => false
  end.

(** [time.LoadLocation(name)]. *)
Definition LoadLocation (name : string) : result Location :=
  if String.eqb name "" || String.eqb name "UTC" then Ok UTC
  else if String.eqb name "Local" then Ok Local
  else if containsDotDot name
          || String.prefix "/" name || String.prefix "\" name
  then Err errLocation
  else match zoneinfo name with
       | Some l => Ok l
       | None => Err (errUnknownTimeZone name)
       end.
End Zones.

End time.

(** ** Package sort

    [sort.Slice(x, less)] reorders [x] so that it is ordered by [less]; it is
    not a stable sort.  The model is the insertion sort the library runs on
    short slices: each element in turn is swapped towards the front while it
    is [less] than its left neighbour.  [insertBack x done] works on the part
    already sorted, held back to front. *)

Module sort.
Section Slice.
Context {A : Type}.
Variable less : A -> A -> bool.

Fixpoint insertBack (x : A) (done : list A) : list A :=
  match done with
  | y :: done' => if less x y then y :: insertBack x done' else x :: done
  | [] => [x]
  end.

Definition Slice (x : list A) : list A :=
  rev (fold_left (fun done a => insertBack a done) x []).
End Slice.
End sort.

(** ** Package ics (github.com/arran4/golang-ical)

    What the program reads of a parsed calendar: the components in document
    order, and for an event its properties, each with a value and a map from
    parameter names to value lists. *)

Module ics.

Record IANAProperty : Type := mkProperty {
  IANAToken : string;
  ICalParameters : gmap string (list string);
  Value : string
}.

Definition ComponentPropertyUniqueId : string := "UID".
Definition ComponentPropertyDtStart : string := "DTSTART".
Definition ComponentPropertyDtEnd : string := "DTEND".
Definition ComponentPropertySummary : string := "SUMMARY".
Definition ComponentPropertyDescription : string := "DESCRIPTION".
Definition ComponentPropertyLocation : string := "LOCATION".

Record VEvent : Type := mkVEvent {
  Properties : list IANAProperty
}.

(** The other kinds of component ([VTIMEZONE], [VTODO], ...) are kept by
    their name only. *)
Inductive Component : Type :=
| Event (vevent : VEvent)
| Other (kind : string).

(** [GetProperty]: a pointer to the first property with that name, [nil]
    when there is none. *)
Definition GetProperty (cb : VEvent) (componentProperty : string)
  : option IANAProperty :=
  find (fun p => String.eqb (IANAToken p) componentProperty) (Properties cb).

End ics.

(** ** The program *)

(** [Event], the record returned in the JSON response (the same struct in
    both variants). *)
Record Event : Type := mkEvent {
  UID : string;
  Summary : string;
  Description : string;
  Location : string;
  Start : time.Time;
  End : time.Time;
  AllDay : bool
}.

(** A call either returns or panics. *)
Inductive run (A : Type) : Type :=
| Return (a : A)
| Panic (msg : string).
Arguments Return {A} a.
Arguments Panic {A} msg.

#[global] Instance run_ret : MRet run := @Return.
#[global] Instance run_bind : MBind run :=
  fun A B (k : A -> run B) (r : run A) =>
    match r with
    | Return a => k a
    | Panic msg => Panic msg
    end.

(** [p.Value] for a pointer [p]: a nil pointer panics. *)
Definition deref (p : option ics.IANAProperty) : run ics.IANAProperty :=
  match p with
  | Some prop => Return prop
  | None => Panic "runtime error: invalid memory address or nil pointer dereference"
  end.

(** [len(valueParam) > 0 && valueParam[0] == "DATE"] *)
Definition isDate (valueParam : list string) : bool :=
  match valueParam with
  | v :: _ => String.eqb v "DATE"
  | [] => false
  end.

(** *** src/main.go *)

Module Main.
Section Program.
Variable Local : time.Location.
Variable zoneinfo : string -> option time.Location.

(** The body of [parseICalTime] (lines 216-234), [format0] being the
    value [format] is declared with on line 216. *)
Definition parseICalTimeFrom (format0 : string)
           (value : string) (prop : ics.IANAProperty)
  : result time.Time :=
  let format := format0 in
  if strings.HasSuffix value "Z" then
    let format := "20060102T150405Z" in
    time.Parse Local format value
  else
    (* Check for TZID *)
    loc ← match ics.ICalParameters prop !! "TZID" with
          | Some (tzid :: _) => time.LoadLocation Local zoneinfo tzid
          | Some [] => Ok Local
          | None => Ok Local
          end;
    time.ParseInLocation "20060102T150405" value loc.

(** [parseICalTime] (lines 214-235). *)
Definition parseICalTime (value : string) (prop : ics.IANAProperty)
  : result time.Time :=
  parseICalTimeFrom "20060102T150405Z0700" value prop.

(** The start and end of the event and whether it is all-day
    (lines 141-175 of [parseEvent]). *)
Definition parseTimes (startProp : ics.IANAProperty)
           (endProp : option ics.IANAProperty)
  : result (time.Time * time.Time * bool) :=
  let valueParam := default [] (ics.ICalParameters startProp !! "VALUE") in
  if isDate valueParam then
    (* All-day event *)
    start ← time.Parse Local "20060102" (ics.Value startProp);
    (* DTEND is exclusive *)
    end_ ← match endProp with
           | Some endProp => time.Parse Local "20060102" (ics.Value endProp)
           | None => Ok (time.Add start (24 * time.Hour))
           end;
    Ok (start, end_, true)
  else
    (* Timed event *)
    start ← parseICalTime (ics.Value startProp) startProp;
    end_ ← match endProp with
           | Some endProp => parseICalTime (ics.Value endProp) endProp
           | None => Ok start
           end;
    Ok (start, end_, false).

(** "Adjust for time zones if TZID is present" (lines 178-185 for the
    start, 188-195 for the end). *)
Definition adjustTZID (t : time.Time) (prop : ics.IANAProperty) : time.Time :=
  match ics.ICalParameters prop !! "TZID" with
  | Some (tzid :: _) =>
    match time.LoadLocation Local zoneinfo tzid with
    | Ok loc => time.In t loc
    | Err _ => t
    end
  | Some [] => t
  | None => t
  end.

(** "Check if the event occurs on the target date" (lines 198-211). *)
Definition onTargetDate (uidProp summaryProp descriptionProp locationProp
                         : option ics.IANAProperty)
           (start end_ : time.Time) (allDay : bool)
           (targetStart targetEnd : time.Time)
  : run (result (option Event)) :=
  if time.After end_ targetStart && time.Before start targetEnd then
    uid ← deref uidProp;
    summary ← deref summaryProp;
    description ← deref descriptionProp;
    location ← deref locationProp;
    Return (Ok (Some {| UID := ics.Value uid;
                        Summary := ics.Value summary;
                        Description := ics.Value description;
                        Location := ics.Value location;
                        Start := start;
                        End := end_;
                        AllDay := allDay |}))
  else Return (Ok None).

(** [parseEvent] (lines 121-212): [(event, nil)], [(nil, nil)] when the
    event is not on the target date, [(nil, err)], or a panic. *)
Definition parseEvent (vevent : ics.VEvent)
           (targetStart targetEnd : time.Time)
  : run (result (option Event)) :=
  let startProp := ics.GetProperty vevent ics.ComponentPropertyDtStart in
  let endProp := ics.GetProperty vevent ics.ComponentPropertyDtEnd in
  let summaryProp := ics.GetProperty vevent ics.ComponentPropertySummary in
  let descriptionProp := ics.GetProperty vevent ics.ComponentPropertyDescription in
  let locationProp := ics.GetProperty vevent ics.ComponentPropertyLocation in
  let uidProp := ics.GetProperty vevent ics.ComponentPropertyUniqueId in
  match startProp with
  | None => Return (Err (errorString "event missing DTSTART"))
  | Some startProp =>
    match parseTimes startProp endProp with
    | Err err => Return (Err err)
    | Ok (start, end_, allDay) =>
      let start := adjustTZID start startProp in
      let end_ := match endProp with
                  | Some endProp => adjustTZID end_ endProp
                  | None => end_
                  end in
      onTargetDate uidProp summaryProp descriptionProp locationProp
                   start end_ allDay targetStart targetEnd
    end
  end.

(** [parseEvent] with lines 177-196, the zone adjustment, taken out:
    what the adjustment is compared with. *)
Definition parseEventUnadjusted (vevent : ics.VEvent)
           (targetStart targetEnd : time.Time)
  : run (result (option Event)) :=
  let startProp := ics.GetProperty vevent ics.ComponentPropertyDtStart in
  let endProp := ics.GetProperty vevent ics.ComponentPropertyDtEnd in
  let summaryProp := ics.GetProperty vevent ics.ComponentPropertySummary in
  let descriptionProp := ics.GetProperty vevent ics.ComponentPropertyDescription in
  let locationProp := ics.GetProperty vevent ics.ComponentPropertyLocation in
  let uidProp := ics.GetProperty vevent ics.ComponentPropertyUniqueId in
  match startProp with
  | None => Return (Err (errorString "event missing DTSTART"))
  | Some startProp =>
    match parseTimes startProp endProp with
    | Err err => Return (Err err)
    | Ok (start, end_, allDay) =>
      onTargetDate uidProp summaryProp descriptionProp locationProp
                   start end_ allDay targetStart targetEnd
    end
  end.

(** "Collect events on the target date" (lines 93-104): the loop, with
    the slice collected so far. *)
Fixpoint collectEvents (components : list ics.Component)
         (targetStart targetEnd : time.Time) (events : list Event)
  : run (list Event) :=
  match components with
  | [] => Return events
  | ics.Event vevent :: components =>
    r ← parseEvent vevent targetStart targetEnd;
    match r with
    | Err _ => collectEvents components targetStart targetEnd events
    | Ok (Some event) =>
      collectEvents components targetStart targetEnd (events ++ [event])
    | Ok None => collectEvents components targetStart targetEnd events
    end
  | ics.Other _ :: components =>
    collectEvents components targetStart targetEnd events
  end.

(** The target day (lines 87-90), [now] being the reading of the clock
    and [dayOffset] the [day] parameter. *)
Definition targetWindow (now : time.Time) (dayOffset : Z)
  : time.Time * time.Time :=
  let targetDate := time.AddDate now 0 0 dayOffset in
  let targetStart := time.Date (time.Year targetDate) (time.Month targetDate)
                               (time.Day targetDate) 0 0 0 0 Local in
  let targetEnd := time.Add targetStart (24 * time.Hour) in
  (targetStart, targetEnd).

(** "Sort events by start time" (lines 106-109). *)
Definition sortEvents (events : list Event) : list Event :=
  sort.Slice (fun a b => time.Before (Start a) (Start b)) events.

(** [caljsonHandler] from the parsed calendar on (lines 86-113): the
    events handed to the JSON encoder.  The decoding of the request and
    the fetch of the document come before and are not modelled; [clock]
    is what [time.Now()] reads, in nanoseconds since the epoch. *)
Definition caljsonHandler (clock : Z) (dayOffset : Z)
           (components : list ics.Component) : run (list Event) :=
  let now := time.mkTime clock Local in
  let '(targetStart, targetEnd) := targetWindow now dayOffset in
  events ← collectEvents components targetStart targetEnd [];
  Return (sortEvents events).
End Program.
End Main.

(** *** src/unnamed/part_000 *)

Module Gin.
Section Program.
Variable Local : time.Location.
Variable zoneinfo : string -> option time.Location.

(** [parseICalTime] (lines 207-227). *)
Definition parseICalTime (value : string) (prop : ics.IANAProperty)
  : result time.Time :=
  if strings.HasSuffix value "Z" then
    (* UTC time *)
    time.Parse Local "20060102T150405Z" value
  else
    (* Check for TZID *)
    loc ← match ics.ICalParameters prop !! "TZID" with
          | Some (tzid :: _) => time.LoadLocation Local zoneinfo tzid
          | Some [] => Ok Local
          | None => Ok Local
          end;
    time.ParseInLocation "20060102T150405" value loc.

(** The start and end of the event and whether it is all-day
    (lines 134-168 of [parseEvent]). *)
Definition parseTimes (startProp : ics.IANAProperty)
           (endProp : option ics.IANAProperty)
  : result (time.Time * time.Time * bool) :=
  let valueParam := default [] (ics.ICalParameters startProp !! "VALUE") in
  if isDate valueParam then
    (* All-day event *)
    start ← time.Parse Local "20060102" (ics.Value startProp);
    (* DTEND is exclusive *)
    end_ ← match endProp with
           | Some endProp => time.Parse Local "20060102" (ics.Value endProp)
           | None => Ok (time.Add start (24 * time.Hour))
           end;
    Ok (start, end_, true)
  else
    (* Timed event *)
    start ← parseICalTime (ics.Value startProp) startProp;
    end_ ← match endProp with
           | Some endProp => parseICalTime (ics.Value endProp) endProp
           | None => Ok start
           end;
    Ok (start, end_, false).

(** "Adjust for time zones if TZID is present" (lines 171-178 for the
    start, 181-188 for the end). *)
Definition adjustTZID (t : time.Time) (prop : ics.IANAProperty) : time.Time :=
  match ics.ICalParameters prop !! "TZID" with
  | Some (tzid :: _) =>
    match time.LoadLocation Local zoneinfo tzid with
    | Ok loc => time.In t loc
    | Err _ => t
    end
  | Some [] => t
  | None => t
  end.

(** "Check if the event occurs on the target date" (lines 191-204). *)
Definition onTargetDate (uidProp summaryProp descriptionProp locationProp
                         : option ics.IANAProperty)
           (start end_ : time.Time) (allDay : bool)
           (targetStart targetEnd : time.Time)
  : run (result (option Event)) :=
  if time.After end_ targetStart && time.Before start targetEnd then
    uid ← deref uidProp;
    summary ← deref summaryProp;
    description ← deref descriptionProp;
    location ← deref locationProp;
    Return (Ok (Some {| UID := ics.Value uid;
                        Summary := ics.Value summary;
                        Description := ics.Value description;
                        Location := ics.Value location;
                        Start := start;
                        End := end_;
                        AllDay := allDay |}))
  else Return (Ok None).

(** [parseEvent] (lines 114-205): [(event, nil)], [(nil, nil)] when the
    event is not on the target date, [(nil, err)], or a panic. *)
Definition parseEvent (vevent : ics.VEvent)
           (targetStart targetEnd : time.Time)
  : run (result (option Event)) :=
  let startProp := ics.GetProperty vevent ics.ComponentPropertyDtStart in
  let endProp := ics.GetProperty vevent ics.ComponentPropertyDtEnd in
  let summaryProp := ics.GetProperty vevent ics.ComponentPropertySummary in
  let descriptionProp := ics.GetProperty vevent ics.ComponentPropertyDescription in
  let locationProp := ics.GetProperty vevent ics.ComponentPropertyLocation in
  let uidProp := ics.GetProperty vevent ics.ComponentPropertyUniqueId in
  match startProp with
  | None => Return (Err (errorString "event missing DTSTART"))
  | Some startProp =>
    match parseTimes startProp endProp with
    | Err err => Return (Err err)
    | Ok (start, end_, allDay) =>
      let start := adjustTZID start startProp in
      let end_ := match endProp with
                  | Some endProp => adjustTZID end_ endProp
                  | None => end_
                  end in
      onTargetDate uidProp summaryProp descriptionProp locationProp
                   start end_ allDay targetStart targetEnd
    end
  end.

(** "Collect events on the target date" (lines 91-102): the loop, with
    the slice collected so far. *)
Fixpoint collectEvents (components : list ics.Component)
         (targetStart targetEnd : time.Time) (events : list Event)
  : run (list Event) :=
  match components with
  | [] => Return events
  | ics.Event vevent :: components =>
    r ← parseEvent vevent targetStart targetEnd;
    match r with
    | Err _ => collectEvents components targetStart targetEnd events
    | Ok (Some event) =>
      collectEvents components targetStart targetEnd (events ++ [event])
    | Ok None => collectEvents components targetStart targetEnd events
    end
  | ics.Other _ :: components =>
    collectEvents components targetStart targetEnd events
  end.

(** The target day (lines 85-88), [now] being the reading of the clock
    and [dayOffset] the [day] parameter. *)
Definition targetWindow (now : time.Time) (dayOffset : Z)
  : time.Time * time.Time :=
  let targetDate := time.AddDate now 0 0 dayOffset in
  let targetStart := time.Date (time.Year targetDate) (time.Month targetDate)
                               (time.Day targetDate) 0 0 0 0 Local in
  let targetEnd := time.Add targetStart (24 * time.Hour) in
  (targetStart, targetEnd).

(** "Sort events by start time" (lines 104-107). *)
Definition sortEvents (events : list Event) : list Event :=
  sort.Slice (fun a b => time.Before (Start a) (Start b)) events.

(** [caljsonHandler] from the parsed calendar on (lines 84-110): the
    events handed to the JSON encoder.  The decoding of the request and
    the fetch of the document come before and are not modelled; [clock]
    is what [time.Now()] reads, in nanoseconds since the epoch. *)
Definition caljsonHandler (clock : Z) (dayOffset : Z)
           (components : list ics.Component) : run (list Event) :=
  let now := time.mkTime clock Local in
  let '(targetStart, targetEnd) := targetWindow now dayOffset in
  events ← collectEvents components targetStart targetEnd [];
  Return (sortEvents events).
End Program.
End Gin.

(** ** Sample zones, calendars and windows *)

Module Samples.

(** New York in 2024: summer time from 10 March 07:00 UTC to 3 November
    06:00 UTC. *)
Definition newYork : time.Location :=
  time.mkLocation "America/New_York"
    (fun sec => if sec <? 1710054000 then -18000
                else if sec <? 1730613600 then -14400
                else -18000).

Definition tokyo : time.Location := time.FixedZone "Asia/Tokyo" 32400.

Definition zoneinfo (name : string) : option time.Location :=
  if String.eqb name "America/New_York" then Some newYork
  else if String.eqb name "Asia/Tokyo" then Some tokyo
  else None.

Definition prop (token value : string) : ics.IANAProperty :=
  ics.mkProperty token ∅ value.

Definition propWith (token param arg value : string) : ics.IANAProperty :=
  ics.mkProperty token {[ param := [arg] ]} value.

(** The four text properties. *)
Definition texts (uid summary : string) : list ics.IANAProperty :=
  [prop "UID" uid; prop "SUMMARY" summary;
   prop "DESCRIPTION" ""; prop "LOCATION" "Room 1"].

(** [DTSTART;VALUE=DATE:20240301], no [DTEND]. *)
Definition holiday : ics.VEvent :=
  ics.mkVEvent (texts "holiday" "Holiday"
                ++ [propWith "DTSTART" "VALUE" "DATE" "20240301"]).

(** Timed events of 1 March 2024, in UTC. *)
Definition timed (uid from to : string) : ics.VEvent :=
  ics.mkVEvent (texts uid uid ++ [prop "DTSTART" from; prop "DTEND" to]).

Definition standup : ics.VEvent := timed "standup" "20240301T090000Z" "20240301T091500Z".
Definition review : ics.VEvent := timed "review" "20240301T100000Z" "20240301T110000Z".
Definition lunch : ics.VEvent := timed "lunch" "20240301T080000Z" "20240301T084500Z".

(** An event without [DTSTART]. *)
Definition noStart : ics.VEvent :=
  ics.mkVEvent (texts "nostart" "No start" ++ [prop "DTEND" "20240301T100000Z"]).

(** An event from midnight to 11:00 UTC without [SUMMARY]; an event with
    dates only. *)
Definition noSummary : ics.VEvent :=
  ics.mkVEvent [prop "UID" "review"; prop "DESCRIPTION" ""; prop "LOCATION" "Room 1";
                prop "DTSTART" "20240301T000000Z"; prop "DTEND" "20240301T110000Z"].

Definition bare : ics.VEvent :=
  ics.mkVEvent [prop "DTSTART" "20240301T100000Z"; prop "DTEND" "20240301T110000Z"].

(** [DTSTART;TZID=...:20240301T100000] with and without a known zone. *)
Definition zoned (tzid : string) : ics.VEvent :=
  ics.mkVEvent (texts "zoned" "Zoned"
                ++ [propWith "DTSTART" "TZID" tzid "20240301T100000"]).

Definition unzoned : ics.VEvent :=
  ics.mkVEvent (texts "zoned" "Zoned" ++ [prop "DTSTART" "20240301T100000"]).

(** A clock reading at noon of [day] March 2024 in [l], and the target
    day it gives with [day=0]. *)
Definition noon (l : time.Location) (day : Z) : Z :=
  time.unixNano (time.Date 2024 3 day 12 0 0 0 l).

Definition march (l : time.Location) (day : Z) : time.Time * time.Time :=
  Main.targetWindow l (time.mkTime (noon l day) l) 0.

End Samples.

(** ** Vocabulary of the statements *)

(** The test of line 199, on instants. *)
Definition overlaps (start end_ targetStart targetEnd : time.Time) : Prop :=
  time.unixNano targetStart < time.unixNano end_
  /\ time.unixNano start < time.unixNano targetEnd.

(** A layout without zone element. *)
Definition zoneless (layout : string) : Prop :=
  Forall (fun c => c <> time.stdISO8601TZ)
         (time.layoutChunks (S (String.length layout)) layout).

(** [t] is the reading [year-month-day hour:min:sec.nsec] of the wall clock
    of [l]. *)
Definition wallClock (t : time.Time) (l : time.Location) : Prop :=
  exists year month day hour min sec nsec,
    t = time.Date year month day hour min sec nsec l.

(** The same outcome, the zone tags of the start and the end apart. *)
Definition sameInstants (r r' : run (result (option Event))) : Prop :=
  match r, r' with
  | Return (Ok (Some e)), Return (Ok (Some e')) =>
    UID e = UID e' /\ Summary e = Summary e'
    /\ Description e = Description e' /\ Location e = Location e'
    /\ time.unixNano (Start e) = time.unixNano (Start e')
    /\ time.unixNano (End e) = time.unixNano (End e')
    /\ AllDay e = AllDay e'
  | Return (Ok None), Return (Ok None) => True
  | Return (Err err), Return (Err err') => err = err'
  | Panic msg, Panic msg' => msg = msg'
  | _, _ => False
  end.

(** Ascending by start: no element starts after its right neighbour. *)
Definition ascending (events : list Event) : Prop :=
  forall (i : nat) (a b : Event),
    events !! i = Some a -> events !! S i = Some b ->
    time.After (Start a) (Start b) = false.

Section Vocabulary.
Variable Local : time.Location.
Variable zoneinfo : string -> option time.Location.

(** The end of an event after the adjustment of lines 187-196. *)
Definition adjustedEnd (end_ : time.Time) (endProp : option ics.IANAProperty)
  : time.Time :=
  match endProp with
  | Some endProp => Main.adjustTZID Local zoneinfo end_ endProp
  | None => end_
  end.

(** A value without the Z suffix, whose TZID names first a zone that
    [LoadLocation] refuses with [e]. *)
Definition unresolvable (prop : ics.IANAProperty) (e : error) : Prop :=
  strings.HasSuffix (ics.Value prop) "Z" = false
  /\ exists tzid rest,
       ics.ICalParameters prop !! "TZID" = Some (tzid :: rest)
       /\ time.LoadLocation Local zoneinfo tzid = Err e.

End Vocabulary.


(** * The request handler in full

    The parts of [caljsonHandler] that come before the calendar is walked:
    the query parameters, the fetch of the document and its parsing, with
    the library calls they make. *)

(** ** Package strconv *)

Module strconv.

Inductive NumError : Type :=
| ErrSyntax
| ErrRange.

(** The digits of an unsigned decimal number, read left to right as
    [ParseUint(s, 10, 64)] does: a byte that is no digit is a syntax error,
    a value beyond 64 bits a range error, whichever comes first. *)
Fixpoint parseDigits (s : string) (n : Z) : NumError + Z :=
  match s with
  | EmptyString => inr n
  | String c rest =>
    match time.digitVal c with
    | None => inl ErrSyntax
    | Some d =>
      if 1844674407370955162 <=? n then inl ErrRange
      else
        let n1 := n * 10 + d in
        if 18446744073709551615 <? n1 then inl ErrRange
        else parseDigits rest n1
    end
  end.

Definition ParseUint (s : string) : NumError + Z :=
  match s with
  | EmptyString => inl ErrSyntax
  | _ => parseDigits s 0
  end.

(** [strconv.Atoi] where [int] has 64 bits: an optional sign, then decimal
    digits; the value lies between -2^63 and 2^63-1. *)
Definition Atoi (s : string) : NumError + Z :=
  match s with
  | EmptyString => inl ErrSyntax
  | String c rest =>
    let neg := Ascii.eqb c "-" in
    let digits := if Ascii.eqb c "+" || Ascii.eqb c "-" then rest else s in
    match ParseUint digits with
    | inl err => inl err
    | inr un =>
      if negb neg && (9223372036854775808 <=? un) then inl ErrRange
      else if neg && (9223372036854775808 <? un) then inl ErrRange
      else inr (if neg then - un else un)
    end
  end.

End strconv.

(** ** Package net/url *)

Module url.

(** [url.Values]: the parsed query, each key with its values in order. *)
Definition Get (v : gmap string (list string)) (key : string) : string :=
  match v !! key with
  | Some (first :: _) => first
  | Some [] => ""
  | None => ""
  end.

Definition ishex (c : ascii) : bool :=
  let n := nat_of_ascii c in
  ((48 <=? n) && (n <=? 57) || (97 <=? n) && (n <=? 102)
   || (65 <=? n) && (n <=? 70))%nat.

Definition unhex (c : ascii) : nat :=
  let n := nat_of_ascii c in
  (if (48 <=? n) && (n <=? 57) then n - 48
   else if (97 <=? n) && (n <=? 102) then n - 97 + 10
   else if (65 <=? n) && (n <=? 70) then n - 65 + 10
   else 0)%nat.

(** The first three bytes at most. *)
Definition escapeError (s : string) : string := substring 0 3 s.

(** [url.QueryUnescape]: [%XX] becomes the byte XX and [+] a blank; a [%]
    that two hexadecimal digits do not follow is an [EscapeError]. *)
Fixpoint QueryUnescape (s : string) : string + string :=
  match s with
  | EmptyString => inr EmptyString
  | String c rest =>
    if Ascii.eqb c "%" then
      match rest with
      | String a (String b rest') =>
        if ishex a && ishex b then
          match QueryUnescape rest' with
          | inr t => inr (String (ascii_of_nat (unhex a * 16 + unhex b)) t)
          | inl err => inl err
          end
        else inl (escapeError s)
      | _ => inl (escapeError s)
      end
    else
      match QueryUnescape rest with
      | inr t => inr (String (if Ascii.eqb c "+" then " "%char else c) t)
      | inl err => inl err
      end
  end.

End url.

(** ** Package net/http, and what the handler answers *)

Module http.

Definition StatusOK : Z := 200.
Definition StatusBadRequest : Z := 400.
Definition StatusInternalServerError : Z := 500.

(** What [http.Get] returns when it returns no error: the status of the
    upstream answer, and what [ioutil.ReadAll] makes of its body. *)
Record Response : Type := mkResponse {
  StatusCode : Z;
  Body : result string
}.

(** What the handler writes:
    - [Error]: [http.Error(w, message, code)], a plain text body;
    - [AbortJSON]: gin's [AbortWithStatusJSON(code, gin.H{"error": message})];
    - [Encode]: the events handed to the JSON encoder for the body of the
      answer (the encoder itself is not modelled). *)
Inductive Answer : Type :=
| Error (message : string) (code : Z)
| AbortJSON (code : Z) (message : string)
| Encode (events : list Event).

End http.

(** ** Package gin: the query of the request *)

Module gin.

(** [c.GetQuery(key)]: the first value of the key and whether the key is
    there (a key with no value at all, which the parser of the query never
    builds, counts as absent). *)
Definition GetQuery (queryCache : gmap string (list string)) (key : string)
  : string * bool :=
  match queryCache !! key with
  | Some (first :: _) => (first, true)
  | Some [] => ("", false)
  | None => ("", false)
  end.

Definition Query (queryCache : gmap string (list string)) (key : string) : string :=
  fst (GetQuery queryCache key).

Definition DefaultQuery (queryCache : gmap string (list string))
           (key defaultValue : string) : string :=
  let '(value, ok) := GetQuery queryCache key in
  if ok then value else defaultValue.

End gin.

(** ** [caljsonHandler] of src/main.go, lines 29-118

    [query] is [r.URL.Query()].  The network and the calendar parser belong
    to the environment: [http_Get] is [http.Get] followed by the reading of
    the body, [ParseCalendar] is [ics.ParseCalendar] and gives the
    components of the calendar, [clock] is what [time.Now()] reads.  The
    line printed for each request is left out. *)

Module MainServer.
Section Handler.
Variable Local : time.Location.
Variable zoneinfo : string -> option time.Location.
Variable http_Get : string -> result http.Response.
Variable ParseCalendar : string -> result (list ics.Component).
Variable clock : Z.

Definition caljsonHandler (query : gmap string (list string)) : run http.Answer :=
  (* Parse query parameters *)
  let params := query in
  let icsURL := url.Get params "ics" in
  let dayStr := url.Get params "day" in
  (* Validate query parameters *)
  if String.eqb icsURL "" then
    Return (http.Error "Missing 'ics' parameter" http.StatusBadRequest)
  else
    let dayStr := if String.eqb dayStr "" then "0" else dayStr in
    match strconv.Atoi dayStr with
    | inl _ => Return (http.Error "Invalid 'day' parameter" http.StatusBadRequest)
    | inr dayOffset =>
      (* Decode the ICS URL *)
      match url.QueryUnescape icsURL with
      | inl _ => Return (http.Error "Invalid 'ics' URL" http.StatusBadRequest)
      | inr decodedIcsURL =>
        (* Fetch the ICS data *)
        match http_Get decodedIcsURL with
        | Err _ =>
          Return (http.Error "Failed to fetch ICS URL" http.StatusInternalServerError)
        | Ok resp =>
          if negb (http.StatusCode resp =? http.StatusOK) then
            Return (http.Error "Failed to retrieve ICS file"
                               http.StatusInternalServerError)
          else
            match http.Body resp with
            | Err _ =>
              Return (http.Error "Failed to read ICS data"
                                 http.StatusInternalServerError)
            | Ok icsData =>
              (* Parse the ICS data *)
              match ParseCalendar icsData with
              | Err _ =>
                Return (http.Error "Failed to parse ICS data"
                                   http.StatusInternalServerError)
              | Ok components =>
                events ← Main.caljsonHandler Local zoneinfo clock dayOffset
                                             components;
                Return (http.Encode events)
              end
            end
        end
      end
    end.

End Handler.
End MainServer.

(** ** [caljsonHandler] of src/unnamed/part_000, lines 31-111

    [query] is the query of the request as gin holds it. *)

Module GinServer.
Section Handler.
Variable Local : time.Location.
Variable zoneinfo : string -> option time.Location.
Variable http_Get : string -> result http.Response.
Variable ParseCalendar : string -> result (list ics.Component).
Variable clock : Z.

Definition caljsonHandler (query : gmap string (list string)) : run http.Answer :=
  (* Parse query parameters *)
  let icsURL := gin.Query query "ics" in
  let dayStr := gin.DefaultQuery query "day" "0" in
  (* Validate query parameters *)
  if String.eqb icsURL "" then
    Return (http.AbortJSON http.StatusBadRequest "Missing 'ics' parameter")
  else
    match strconv.Atoi dayStr with
    | inl _ => Return (http.AbortJSON http.StatusBadRequest "Invalid 'day' parameter")
    | inr dayOffset =>
      (* Decode the ICS URL *)
      match url.QueryUnescape icsURL with
      | inl _ => Return (http.AbortJSON http.StatusBadRequest "Invalid 'ics' URL")
      | inr decodedIcsURL =>
        (* Fetch the ICS data *)
        match http_Get decodedIcsURL with
        | Err _ =>
          Return (http.AbortJSON http.StatusInternalServerError
                                 "Failed to fetch ICS URL")
        | Ok resp =>
          if negb (http.StatusCode resp =? http.StatusOK) then
            Return (http.AbortJSON http.StatusInternalServerError
                                   "Failed to retrieve ICS file")
          else
            match http.Body resp with
            | Err _ =>
              Return (http.AbortJSON http.StatusInternalServerError
                                     "Failed to read ICS data")
            | Ok icsData =>
              (* Parse the ICS data *)
              match ParseCalendar icsData with
              | Err _ =>
                Return (http.AbortJSON http.StatusInternalServerError
                                       "Failed to parse ICS data")
              | Ok components =>
                events ← Gin.caljsonHandler Local zoneinfo clock dayOffset
                                            components;
                Return (http.Encode events)
              end
            end
        end
      end
    end.

End Handler.
End GinServer.

(** ** Vocabulary of the further statements *)

(** The day number (days since 1970-01-01) of a civil date, as [time.Date]
    counts it. *)
Definition dayCount (year month day : Z) : Z :=
  time.daysSinceEpoch year + time.daysBefore month
  + (if time.isLeap year && (3 <=? month) then 1 else 0) + (day - 1).

Fixpoint upto (n : nat) (from : Z) : list Z :=
  match n with
  | O => []
  | S n => from :: upto n (from + 1)
  end.

(** The steps of [time.civilOfDays], named: the year of the era of a day of
    the era, the first day of a year of the era (years begin on 1 March),
    and the month and day of a day of such a year. *)
Definition yearOfEra (doe : Z) : Z :=
  (doe - doe / 1460 + doe / 36524 - doe / 146096) / 365.

Definition marchYearStart (yoe : Z) : Z := 365 * yoe + yoe / 4 - yoe / 100.

Definition monthDay (doy : Z) : Z * Z :=
  let mp := (5 * doy + 2) / 153 in
  let d := doy - (153 * mp + 2) / 5 + 1 in
  let m := if mp <? 10 then mp + 3 else mp - 9 in
  (m, d).

(** Days from 1 March to the first of a month. *)
Definition marchBefore (m : Z) : Z :=
  match m with
  | 3 => 0 | 4 => 31 | 5 => 61 | 6 => 92 | 7 => 122 | 8 => 153 | 9 => 184
  | 10 => 214 | 11 => 245 | 12 => 275 | 1 => 306 | 2 => 337 | _ => 0
  end.

(** The checks of the calendar that are made case by case: the first and the
    last day of a year of the era are of that year, a day of the year falls
    in its month, and [dayCount] of the first of a month is what the era
    counts. *)
Definition endpointsOk (k : Z) : bool :=
  (yearOfEra (marchYearStart k) =? k)
  && (yearOfEra (marchYearStart (k + 1) - 1) =? k).

Definition monthDayOk (doy : Z) : bool :=
  let '(m, d) := monthDay doy in
  (1 <=? m) && (m <=? 12) && (marchBefore m + d - 1 =? doy).

Definition baseOk (k : Z) : bool :=
  forallb (fun m => dayCount (k + (if m <=? 2 then 1 else 0)) m 1
                    =? marchYearStart k - 719468 + marchBefore m)
          (upto 12 1).

(** A zone without transitions. *)
Definition fixedOffset (l : time.Location) (offset : Z) : Prop :=
  forall sec, time.lookup l sec = offset.

(** The local day number of a clock reading (nanoseconds) at [offset]. *)
Definition localDay (clock offset : Z) : Z :=
  (clock / 1000000000 + offset) / 86400.

(** The six properties [parseEvent] asks for. *)
Definition asked (p : ics.IANAProperty) : bool :=
  String.eqb (ics.IANAToken p) ics.ComponentPropertyDtStart
  || String.eqb (ics.IANAToken p) ics.ComponentPropertyDtEnd
  || String.eqb (ics.IANAToken p) ics.ComponentPropertySummary
  || String.eqb (ics.IANAToken p) ics.ComponentPropertyDescription
  || String.eqb (ics.IANAToken p) ics.ComponentPropertyLocation
  || String.eqb (ics.IANAToken p) ics.ComponentPropertyUniqueId.

(** [s] with a blank for every [+]. *)
Fixpoint plusToBlank (s : string) : string :=
  match s with
  | EmptyString => EmptyString
  | String c rest =>
    String (if Ascii.eqb c "+" then " "%char else c) (plusToBlank rest)
  end.

Fixpoint contains (c : ascii) (s : string) : bool :=
  match s with
  | EmptyString => false
  | String c' rest => Ascii.eqb c' c || contains c rest
  end.

(** Eight bytes, all of them digits. *)
Definition eightDigits (s : string) : Prop :=
  String.length s = 8%nat
  /\ forallb time.isDigit (list_ascii_of_string s) = true.

(** The same answer from the two variants: the same status and message, or
    the same events for the encoder. *)
Definition sameAnswer (main gin : run http.Answer) : Prop :=
  match main, gin with
  | Return (http.Error message code), Return (http.AbortJSON code' message') =>
    code = code' /\ message = message'
  | Return (http.Encode events), Return (http.Encode events') => events = events'
  | Panic msg, Panic msg' => msg = msg'
  | _, _ => False
  end.

Section Vocabulary2.
Variable Local : time.Location.
Variable zoneinfo : string -> option time.Location.

(** What the loop keeps of a component: the event [parseEvent] returns. *)
Definition kept (targetStart targetEnd : time.Time) (c : ics.Component)
  : option Event :=
  match c with
  | ics.Event vevent =>
    match Main.parseEvent Local zoneinfo vevent targetStart targetEnd with
    | Return (Ok (Some event)) => Some event
    | _ => None
    end
  | ics.Other _ => None
  end.

(** A component on which [parseEvent] panics. *)
Definition faulty (targetStart targetEnd : time.Time) (c : ics.Component) : Prop :=
  match c with
  | ics.Event vevent =>
    exists msg,
      Main.parseEvent Local zoneinfo vevent targetStart targetEnd = Panic msg
  | ics.Other _ => False
  end.

End Vocabulary2.

(** ** Sample requests *)

Module Requests.

Definition feed : string := "https://example.org/team.ics".

(** A network with one document, and one without any. *)
Definition online (u : string) : result http.Response :=
  if String.eqb u feed then Ok (http.mkResponse 200 (Ok "BEGIN:VCALENDAR"))
  else Ok (http.mkResponse 404 (Ok "not found")).

Definition offline (u : string) : result http.Response :=
  Err (errorString "dial tcp: network is unreachable").

(** The calendar of the document: two events of 1 March 2024, a time zone
    block and an event without [DTSTART]. *)
Definition calendar : list ics.Component :=
  [ics.Event Samples.review; ics.Other "VTIMEZONE";
   ics.Event Samples.noStart; ics.Event Samples.standup].

Definition parser (data : string) : result (list ics.Component) :=
  if String.eqb data "BEGIN:VCALENDAR" then Ok calendar
  else Err (errorString "malformed calendar").

Definition noParser (data : string) : result (list ics.Component) :=
  Err (errorString "malformed calendar").

Definition request (ics day : string) : gmap string (list string) :=
  {[ "ics" := [ics]; "day" := [day] ]}.

(** [DTSTART:20240301T000000Z] without [DTEND]. *)
Definition midnight : ics.VEvent :=
  ics.mkVEvent (Samples.texts "midnight" "Midnight"
                ++ [Samples.prop "DTSTART" "20240301T000000Z"]).

End Requests.

(** * Properties *)

(** ** Instants and zone tags *)

Lemma After_spec (t u : time.Time) :
  time.After t u = true <-> time.unixNano u < time.unixNano t.
Proof. unfold time.After. rewrite Z.gtb_ltb. apply Z.ltb_lt. Qed.

Lemma Before_spec (t u : time.Time) :
  time.Before t u = true <-> time.unixNano t < time.unixNano u.
Proof. unfold time.Before. apply Z.ltb_lt. Qed.

Lemma In_unixNano (t : time.Time) (l : time.Location) :
  time.unixNano (time.In t l) = time.unixNano t.
Proof. reflexivity. Qed.

Lemma In_loc (t : time.Time) (l : time.Location) :
  time.loc (time.In t l) = l.
Proof. reflexivity. Qed.

(** ** Parsing without zone element

    The layouts the program parses with have no zone element: the value is
    read as a wall-clock reading of the default location, and the local
    location plays no part. *)

Lemma parseChunk_zone (alayout avalue : string) (c : time.chunk)
      (f f' : time.fields) (value value' : string) :
  c <> time.stdISO8601TZ ->
  time.parseChunk alayout avalue c f value = Ok (f', value') ->
  time.f_z f' = time.f_z f /\ time.f_zoneOffset f' = time.f_zoneOffset f.
Proof.
  intros Hc Hparse. destruct c; try congruence; simpl in Hparse;
    repeat case_match; simplify_eq; auto.
Qed.

Lemma parseChunks_zone (alayout avalue : string) (cs : list time.chunk) :
  Forall (fun c => c <> time.stdISO8601TZ) cs ->
  forall (f f' : time.fields) (value : string),
    time.parseChunks alayout avalue cs f value = Ok f' ->
    time.f_z f' = time.f_z f /\ time.f_zoneOffset f' = time.f_zoneOffset f.
Proof.
  induction 1 as [|c cs Hc _ IH]; intros f f' value Hparse; simpl in Hparse.
  - destruct value; simplify_eq; auto.
  - destruct (time.parseChunk alayout avalue c f value) as [[f1 value1]|e] eqn:Hchunk;
      simpl in Hparse; [| discriminate].
    destruct (parseChunk_zone _ _ _ _ _ _ _ Hc Hchunk) as [Hz Ho].
    destruct (IH _ _ _ Hparse) as [Hz' Ho']. split; congruence.
Qed.

Lemma parse_zoneless (layout value : string) (defaultLocation local : time.Location) :
  zoneless layout ->
  time.parse layout value defaultLocation local
  = (f ← time.parseChunks layout value
          (time.layoutChunks (S (String.length layout)) layout)
          time.fields0 value;
     if (time.f_day f <? 1) || (time.daysIn (time.f_month f) (time.f_year f) <? time.f_day f)
     then Err (ParseError layout value ": day out of range")
     else Ok (time.Date (time.f_year f) (time.f_month f) (time.f_day f)
                        (time.f_hour f) (time.f_min f) (time.f_sec f)
                        (time.f_nsec f) defaultLocation)).
Proof.
  intros Hlayout. unfold time.parse.
  destruct (time.parseChunks _ _ _ _ _) as [f|e] eqn:Hparse; [| reflexivity].
  simpl. destruct (parseChunks_zone _ _ _ Hlayout _ _ _ Hparse) as [Hz Ho].
  simpl in Hz, Ho. rewrite Hz, Ho. reflexivity.
Qed.

(** [time.Parse] with such a layout reads the value in UTC. *)
Lemma Parse_zoneless (Local : time.Location) (layout value : string) :
  zoneless layout ->
  time.Parse Local layout value = time.ParseInLocation layout value time.UTC.
Proof.
  intros Hlayout. unfold time.Parse, time.ParseInLocation.
  rewrite !parse_zoneless by assumption. reflexivity.
Qed.

Lemma ParseInLocation_wallClock (layout value : string) (l : time.Location)
      (t : time.Time) :
  zoneless layout ->
  time.ParseInLocation layout value l = Ok t -> wallClock t l.
Proof.
  intros Hlayout. unfold time.ParseInLocation.
  rewrite parse_zoneless by assumption.
  destruct (time.parseChunks _ _ _ _ _) as [f|e]; simpl; [| discriminate].
  destruct (_ || _); [discriminate |].
  intros [= <-]. unfold wallClock. eauto 10.
Qed.

Lemma zoneless_date : zoneless "20060102".
Proof. unfold zoneless. simpl. repeat constructor; discriminate. Qed.

Lemma zoneless_utc : zoneless "20060102T150405Z".
Proof. unfold zoneless. simpl. repeat constructor; discriminate. Qed.

Lemma zoneless_naive : zoneless "20060102T150405".
Proof. unfold zoneless. simpl. repeat constructor; discriminate. Qed.

Section Properties.
Variable Local : time.Location.
Variable zoneinfo : string -> option time.Location.

Abbreviation LoadLocation := (time.LoadLocation Local zoneinfo).
Abbreviation parseICalTime := (Main.parseICalTime Local zoneinfo).
Abbreviation parseTimes := (Main.parseTimes Local zoneinfo).
Abbreviation adjustTZID := (Main.adjustTZID Local zoneinfo).
Abbreviation parseEvent := (Main.parseEvent Local zoneinfo).
Abbreviation collectEvents := (Main.collectEvents Local zoneinfo).
Abbreviation caljsonHandler := (Main.caljsonHandler Local zoneinfo).
Abbreviation adjustedEnd := (adjustedEnd Local zoneinfo).
Abbreviation unresolvable := (unresolvable Local zoneinfo).

Lemma overlap_test (start end_ targetStart targetEnd : time.Time) :
  time.After end_ targetStart && time.Before start targetEnd = true
  <-> overlaps start end_ targetStart targetEnd.
Proof.
  unfold overlaps. rewrite andb_true_iff, After_spec, Before_spec. tauto.
Qed.

Lemma adjustTZID_unixNano (t : time.Time) (prop : ics.IANAProperty) :
  time.unixNano (adjustTZID t prop) = time.unixNano t.
Proof.
  unfold Main.adjustTZID.
  destruct (ics.ICalParameters prop !! "TZID") as [[|tzid rest]|]; try reflexivity.
  destruct (LoadLocation tzid); reflexivity.
Qed.

Lemma adjustedEnd_unixNano (t : time.Time) (endProp : option ics.IANAProperty) :
  time.unixNano (adjustedEnd t endProp) = time.unixNano t.
Proof. destruct endProp; simpl; [apply adjustTZID_unixNano | reflexivity]. Qed.

(** [parseEvent] once the start property is there and the times are parsed. *)
Lemma parseEvent_parsed (vevent : ics.VEvent) (startProp : ics.IANAProperty)
      (start end_ : time.Time) (allDay : bool) (targetStart targetEnd : time.Time) :
  ics.GetProperty vevent ics.ComponentPropertyDtStart = Some startProp ->
  parseTimes startProp (ics.GetProperty vevent ics.ComponentPropertyDtEnd)
  = Ok (start, end_, allDay) ->
  parseEvent vevent targetStart targetEnd
  = Main.onTargetDate
      (ics.GetProperty vevent ics.ComponentPropertyUniqueId)
      (ics.GetProperty vevent ics.ComponentPropertySummary)
      (ics.GetProperty vevent ics.ComponentPropertyDescription)
      (ics.GetProperty vevent ics.ComponentPropertyLocation)
      (adjustTZID start startProp)
      (adjustedEnd end_ (ics.GetProperty vevent ics.ComponentPropertyDtEnd))
      allDay targetStart targetEnd.
Proof.
  intros Hstart Htimes. unfold Main.parseEvent. rewrite Hstart, Htimes.
  reflexivity.
Qed.

Lemma parseEvent_times_fail (vevent : ics.VEvent) (startProp : ics.IANAProperty)
      (e : error) (targetStart targetEnd : time.Time) :
  ics.GetProperty vevent ics.ComponentPropertyDtStart = Some startProp ->
  parseTimes startProp (ics.GetProperty vevent ics.ComponentPropertyDtEnd) = Err e ->
  parseEvent vevent targetStart targetEnd = Return (Err e).
Proof.
  intros Hstart Htimes. unfold Main.parseEvent. rewrite Hstart, Htimes.
  reflexivity.
Qed.

(** [onTargetDate] never returns an error. *)
Lemma onTargetDate_no_error uidProp summaryProp descriptionProp locationProp
      (start end_ : time.Time) (allDay : bool) (targetStart targetEnd : time.Time)
      (e : error) :
  Main.onTargetDate uidProp summaryProp descriptionProp locationProp
                    start end_ allDay targetStart targetEnd
  <> Return (Err e).
Proof.
  unfold Main.onTargetDate.
  destruct (time.After end_ targetStart && time.Before start targetEnd);
    [| discriminate].
  destruct uidProp, summaryProp, descriptionProp, locationProp; discriminate.
Qed.

(** Outside the window nothing is dereferenced and the event is absent. *)
Lemma onTargetDate_outside uidProp summaryProp descriptionProp locationProp
      (start end_ : time.Time) (allDay : bool) (targetStart targetEnd : time.Time) :
  ~ overlaps start end_ targetStart targetEnd ->
  Main.onTargetDate uidProp summaryProp descriptionProp locationProp
                    start end_ allDay targetStart targetEnd
  = Return (Ok None).
Proof.
  intros Hout. unfold Main.onTargetDate.
  destruct (time.After end_ targetStart && time.Before start targetEnd) eqn:Htest;
    [| reflexivity].
  apply overlap_test in Htest. contradiction.
Qed.

(** Inside the window, with the four text properties there, the event is
    built from them. *)
Lemma onTargetDate_inside (uid summary description location : ics.IANAProperty)
      (start end_ : time.Time) (allDay : bool) (targetStart targetEnd : time.Time) :
  overlaps start end_ targetStart targetEnd ->
  Main.onTargetDate (Some uid) (Some summary) (Some description) (Some location)
                    start end_ allDay targetStart targetEnd
  = Return (Ok (Some (mkEvent (ics.Value uid) (ics.Value summary)
                              (ics.Value description) (ics.Value location)
                              start end_ allDay))).
Proof.
  intros Hin. apply overlap_test in Hin. unfold Main.onTargetDate.
  rewrite Hin. reflexivity.
Qed.

(** Inside the window, a text property that is not there is a nil pointer
    and the struct literal of lines 200-208 panics. *)
Lemma onTargetDate_nil uidProp summaryProp descriptionProp locationProp
      (start end_ : time.Time) (allDay : bool) (targetStart targetEnd : time.Time) :
  overlaps start end_ targetStart targetEnd ->
  uidProp = None \/ summaryProp = None \/ descriptionProp = None
  \/ locationProp = None ->
  Main.onTargetDate uidProp summaryProp descriptionProp locationProp
                    start end_ allDay targetStart targetEnd
  = Panic "runtime error: invalid memory address or nil pointer dereference".
Proof.
  intros Hin Hnil. apply overlap_test in Hin. unfold Main.onTargetDate.
  rewrite Hin.
  destruct uidProp, summaryProp, descriptionProp, locationProp;
    try reflexivity.
  destruct Hnil as [H|[H|[H|H]]]; discriminate.
Qed.

(** With the four text properties there, an event whose times parse is
    returned exactly when it overlaps the window. *)
Lemma parseEvent_found_iff_overlaps (vevent : ics.VEvent)
      (startProp uid summary description location : ics.IANAProperty)
      (start end_ : time.Time) (allDay : bool) (targetStart targetEnd : time.Time) :
  ics.GetProperty vevent ics.ComponentPropertyDtStart = Some startProp ->
  parseTimes startProp (ics.GetProperty vevent ics.ComponentPropertyDtEnd)
  = Ok (start, end_, allDay) ->
  ics.GetProperty vevent ics.ComponentPropertyUniqueId = Some uid ->
  ics.GetProperty vevent ics.ComponentPropertySummary = Some summary ->
  ics.GetProperty vevent ics.ComponentPropertyDescription = Some description ->
  ics.GetProperty vevent ics.ComponentPropertyLocation = Some location ->
  (exists event, parseEvent vevent targetStart targetEnd = Return (Ok (Some event)))
  <-> overlaps start end_ targetStart targetEnd.
Proof.
  intros Hstart Htimes Hu Hs Hd Hl.
  rewrite (parseEvent_parsed _ _ _ _ _ _ _ Hstart Htimes), Hu, Hs, Hd, Hl.
  assert (Hsame : overlaps (adjustTZID start startProp)
                    (adjustedEnd end_ (ics.GetProperty vevent ics.ComponentPropertyDtEnd))
                    targetStart targetEnd
                  <-> overlaps start end_ targetStart targetEnd).
  { unfold overlaps. rewrite adjustTZID_unixNano, adjustedEnd_unixNano. tauto. }
  rewrite <- Hsame. split.
  - intros [event Hevent].
    destruct (Z_lt_dec (time.unixNano targetStart)
                (time.unixNano (adjustedEnd end_ (ics.GetProperty vevent ics.ComponentPropertyDtEnd))))
      as [H1|H1];
      destruct (Z_lt_dec (time.unixNano (adjustTZID start startProp))
                  (time.unixNano targetEnd)) as [H2|H2];
      try (split; assumption);
      rewrite onTargetDate_outside in Hevent
        by (unfold overlaps; tauto); discriminate.
  - intros Hin. eexists. apply onTargetDate_inside. exact Hin.
Qed.

(** Whatever properties are there, an event whose times parse is absent
    from the result exactly when it does not overlap the window: so an event
    that ends at the start of the window, or starts at its end, is absent. *)
Lemma parseEvent_absent_iff (vevent : ics.VEvent) (startProp : ics.IANAProperty)
      (start end_ : time.Time) (allDay : bool) (targetStart targetEnd : time.Time) :
  ics.GetProperty vevent ics.ComponentPropertyDtStart = Some startProp ->
  parseTimes startProp (ics.GetProperty vevent ics.ComponentPropertyDtEnd)
  = Ok (start, end_, allDay) ->
  parseEvent vevent targetStart targetEnd = Return (Ok None)
  <-> ~ overlaps start end_ targetStart targetEnd.
Proof.
  intros Hstart Htimes.
  rewrite (parseEvent_parsed _ _ _ _ _ _ _ Hstart Htimes).
  unfold Main.onTargetDate.
  destruct (_ && _) eqn:Htest.
  - apply overlap_test in Htest. unfold overlaps in Htest.
    rewrite adjustTZID_unixNano, adjustedEnd_unixNano in Htest.
    split; [| intros Hout; contradiction].
    destruct (ics.GetProperty vevent ics.ComponentPropertyUniqueId),
             (ics.GetProperty vevent ics.ComponentPropertySummary),
             (ics.GetProperty vevent ics.ComponentPropertyDescription),
             (ics.GetProperty vevent ics.ComponentPropertyLocation);
      discriminate.
  - split; [| reflexivity]. intros _ Hin.
    assert (Htrue : time.After (adjustedEnd end_ (ics.GetProperty vevent ics.ComponentPropertyDtEnd))
                               targetStart
                    && time.Before (adjustTZID start startProp) targetEnd = true).
    { apply overlap_test. unfold overlaps.
      rewrite adjustTZID_unixNano, adjustedEnd_unixNano. exact Hin. }
    congruence.
Qed.

(** An event whose times parse, that overlaps the window and lacks one of
    the four text properties makes [parseEvent] panic. *)
Lemma parseEvent_nil_panics (vevent : ics.VEvent) (startProp : ics.IANAProperty)
      (start end_ : time.Time) (allDay : bool) (targetStart targetEnd : time.Time) :
  ics.GetProperty vevent ics.ComponentPropertyDtStart = Some startProp ->
  parseTimes startProp (ics.GetProperty vevent ics.ComponentPropertyDtEnd)
  = Ok (start, end_, allDay) ->
  overlaps start end_ targetStart targetEnd ->
  ics.GetProperty vevent ics.ComponentPropertyUniqueId = None
  \/ ics.GetProperty vevent ics.ComponentPropertySummary = None
  \/ ics.GetProperty vevent ics.ComponentPropertyDescription = None
  \/ ics.GetProperty vevent ics.ComponentPropertyLocation = None ->
  parseEvent vevent targetStart targetEnd
  = Panic "runtime error: invalid memory address or nil pointer dereference".
Proof.
  intros Hstart Htimes Hin Hnil.
  rewrite (parseEvent_parsed _ _ _ _ _ _ _ Hstart Htimes).
  apply onTargetDate_nil; [| exact Hnil].
  unfold overlaps. rewrite adjustTZID_unixNano, adjustedEnd_unixNano. exact Hin.
Qed.

(** ** Reading a timed value (claims C4 and C2) *)

Lemma parseICalTime_utc (value : string) (prop : ics.IANAProperty) :
  strings.HasSuffix value "Z" = true ->
  parseICalTime value prop
  = time.ParseInLocation "20060102T150405Z" value time.UTC.
Proof.
  intros Hz. unfold Main.parseICalTime, Main.parseICalTimeFrom. rewrite Hz.
  apply Parse_zoneless, zoneless_utc.
Qed.

Lemma parseICalTime_zoned (value : string) (prop : ics.IANAProperty)
      (tzid : string) (rest : list string) :
  strings.HasSuffix value "Z" = false ->
  ics.ICalParameters prop !! "TZID" = Some (tzid :: rest) ->
  parseICalTime value prop
  = (loc ← LoadLocation tzid;
     time.ParseInLocation "20060102T150405" value loc).
Proof.
  intros Hz Htzid. unfold Main.parseICalTime, Main.parseICalTimeFrom.
  rewrite Hz, Htzid. reflexivity.
Qed.

Lemma parseICalTime_local (value : string) (prop : ics.IANAProperty) :
  strings.HasSuffix value "Z" = false ->
  ics.ICalParameters prop !! "TZID" = None
  \/ ics.ICalParameters prop !! "TZID" = Some [] ->
  parseICalTime value prop
  = time.ParseInLocation "20060102T150405" value Local.
Proof.
  intros Hz Htzid. unfold Main.parseICalTime, Main.parseICalTimeFrom.
  rewrite Hz. destruct Htzid as [-> | ->]; reflexivity.
Qed.

(** Claim C4: the case analysis of [parseICalTime].  A value with the Z
    suffix is read in UTC, whatever the parameters (and [20240615T140000Z]
    is 14:00 UTC of 15 June 2024, 1718460000 seconds after the epoch);
    otherwise, when the TZID parameter has at least one value and the first
    resolves to a zone, the value is read as a wall-clock reading in that
    zone; when the parameter is absent or has no value, as a wall-clock
    reading in the local zone of the process. *)
Theorem parseICalTime_cases (value : string) (prop : ics.IANAProperty) :
  (strings.HasSuffix value "Z" = true ->
   parseICalTime value prop
   = time.ParseInLocation "20060102T150405Z" value time.UTC
   /\ forall t, parseICalTime value prop = Ok t -> wallClock t time.UTC)
  /\ (strings.HasSuffix value "Z" = false ->
      forall (tzid : string) (rest : list string) (loc : time.Location),
        ics.ICalParameters prop !! "TZID" = Some (tzid :: rest) ->
        LoadLocation tzid = Ok loc ->
        parseICalTime value prop
        = time.ParseInLocation "20060102T150405" value loc
        /\ forall t, parseICalTime value prop = Ok t -> wallClock t loc)
  /\ (strings.HasSuffix value "Z" = false ->
      ics.ICalParameters prop !! "TZID" = None
      \/ ics.ICalParameters prop !! "TZID" = Some [] ->
      parseICalTime value prop
      = time.ParseInLocation "20060102T150405" value Local
      /\ forall t, parseICalTime value prop = Ok t -> wallClock t Local)
  /\ parseICalTime "20240615T140000Z" prop
     = Ok (time.mkTime (1718460000 * time.Second) time.UTC)
  /\ time.mkTime (1718460000 * time.Second) time.UTC
     = time.Date 2024 6 15 14 0 0 0 time.UTC.
Proof.
  split; [| split; [| split; [| split]]].
  - intros Hz. rewrite (parseICalTime_utc _ _ Hz). split; [reflexivity |].
    intros t. apply ParseInLocation_wallClock, zoneless_utc.
  - intros Hz tzid rest loc Htzid Hloc.
    rewrite (parseICalTime_zoned _ _ _ _ Hz Htzid), Hloc. simpl.
    split; [reflexivity |].
    intros t. apply ParseInLocation_wallClock, zoneless_naive.
  - intros Hz Htzid. rewrite (parseICalTime_local _ _ Hz Htzid).
    split; [reflexivity |].
    intros t. apply ParseInLocation_wallClock, zoneless_naive.
  - rewrite parseICalTime_utc by reflexivity. vm_compute. reflexivity.
  - vm_compute. reflexivity.
Qed.

Lemma parseICalTime_unresolvable (prop : ics.IANAProperty) (e : error) :
  unresolvable prop e -> parseICalTime (ics.Value prop) prop = Err e.
Proof.
  intros (Hz & tzid & rest & Htzid & Hload).
  rewrite (parseICalTime_zoned _ _ _ _ Hz Htzid), Hload. reflexivity.
Qed.

(** A component on which [parseEvent] returns an error is passed over by
    the loop. *)
Lemma collectEvents_skip (vevent : ics.VEvent) (e : error)
      (targetStart targetEnd : time.Time)
      (components : list ics.Component) (events : list Event) :
  parseEvent vevent targetStart targetEnd = Return (Err e) ->
  collectEvents (ics.Event vevent :: components) targetStart targetEnd events
  = collectEvents components targetStart targetEnd events.
Proof. intros Hfail. simpl. rewrite Hfail. reflexivity. Qed.

(** Claim C2, as amended: on a timed event whose start value (or end value,
    the start having parsed) lacks the Z suffix and carries a TZID whose
    first value does not resolve, [parseICalTime] returns the error of the
    zone lookup, [parseEvent] fails with it and the loop passes over the
    component.  Only the later adjustment of lines 177-196 ignores a zone
    name that does not resolve and keeps the time it was given. *)
Theorem unresolvable_zone_fails (vevent : ics.VEvent)
        (startProp : ics.IANAProperty) (e : error)
        (targetStart targetEnd : time.Time) :
  ics.GetProperty vevent ics.ComponentPropertyDtStart = Some startProp ->
  isDate (default [] (ics.ICalParameters startProp !! "VALUE")) = false ->
  unresolvable startProp e
  \/ (exists (endProp : ics.IANAProperty) (start : time.Time),
        ics.GetProperty vevent ics.ComponentPropertyDtEnd = Some endProp
        /\ parseICalTime (ics.Value startProp) startProp = Ok start
        /\ unresolvable endProp e) ->
  parseEvent vevent targetStart targetEnd = Return (Err e)
  /\ (forall components events,
        collectEvents (ics.Event vevent :: components) targetStart targetEnd events
        = collectEvents components targetStart targetEnd events)
  /\ (forall (t : time.Time) (prop : ics.IANAProperty) tzid rest e',
        ics.ICalParameters prop !! "TZID" = Some (tzid :: rest) ->
        LoadLocation tzid = Err e' ->
        adjustTZID t prop = t).
Proof.
  intros Hstart Htimed Hbad.
  assert (Hfail : parseEvent vevent targetStart targetEnd = Return (Err e)).
  { apply (parseEvent_times_fail _ _ _ _ _ Hstart).
    unfold Main.parseTimes. rewrite Htimed.
    destruct Hbad as [Hbad | (endProp & start & Hend & Hparsed & Hbad)].
    - rewrite (parseICalTime_unresolvable _ _ Hbad). reflexivity.
    - rewrite Hparsed, Hend. simpl.
      rewrite (parseICalTime_unresolvable _ _ Hbad). reflexivity. }
  split; [exact Hfail | split].
  - intros components events. apply (collectEvents_skip _ _ _ _ _ _ Hfail).
  - intros t prop tzid rest e' Htzid Hload. unfold Main.adjustTZID.
    rewrite Htzid, Hload. reflexivity.
Qed.

(** ** An event without end (claim C5) *)

(** Claim C5: on an event with a start property and no end property the
    missing end never makes extraction fail, and the end defaults by kind:
    start + 24 hours for an all-day event ([VALUE=DATE]), the start itself
    for a timed event.  The only error is that of the start value; once the
    start is parsed, the times are fixed, [parseEvent] goes on to the window
    test with them and returns no error, and an event it returns carries
    that end. *)
Theorem missing_end_defaults (vevent : ics.VEvent) (startProp : ics.IANAProperty)
        (targetStart targetEnd : time.Time) :
  ics.GetProperty vevent ics.ComponentPropertyDtStart = Some startProp ->
  ics.GetProperty vevent ics.ComponentPropertyDtEnd = None ->
  let allDay := isDate (default [] (ics.ICalParameters startProp !! "VALUE")) in
  match (if allDay then time.Parse Local "20060102" (ics.Value startProp)
         else parseICalTime (ics.Value startProp) startProp) with
  | Ok start =>
    let end_ := if allDay then time.Add start (24 * time.Hour) else start in
    parseTimes startProp None = Ok (start, end_, allDay)
    /\ parseEvent vevent targetStart targetEnd
       = Main.onTargetDate
           (ics.GetProperty vevent ics.ComponentPropertyUniqueId)
           (ics.GetProperty vevent ics.ComponentPropertySummary)
           (ics.GetProperty vevent ics.ComponentPropertyDescription)
           (ics.GetProperty vevent ics.ComponentPropertyLocation)
           (adjustTZID start startProp) end_ allDay targetStart targetEnd
    /\ (forall e, parseEvent vevent targetStart targetEnd <> Return (Err e))
    /\ (forall event,
          parseEvent vevent targetStart targetEnd = Return (Ok (Some event)) ->
          AllDay event = allDay
          /\ End event = end_
          /\ time.unixNano (End event)
             = time.unixNano (Start event)
               + (if allDay then 24 * 3600 * 1000000000 else 0))
  | Err e => parseEvent vevent targetStart targetEnd = Return (Err e)
  end.
Proof.
  intros Hstart Hend allDay.
  assert (Htimes : parseTimes startProp None
                   = (start ← (if allDay
                               then time.Parse Local "20060102" (ics.Value startProp)
                               else parseICalTime (ics.Value startProp) startProp);
                      Ok (start,
                          if allDay then time.Add start (24 * time.Hour) else start,
                          allDay))).
  { unfold Main.parseTimes. fold allDay.
    destruct allDay; [destruct (time.Parse _ _ _) | destruct (parseICalTime _ _)];
      reflexivity. }
  destruct (if allDay then _ else _) as [start|e]; simpl in Htimes.
  - assert (Hrun : parseEvent vevent targetStart targetEnd
                   = Main.onTargetDate
                       (ics.GetProperty vevent ics.ComponentPropertyUniqueId)
                       (ics.GetProperty vevent ics.ComponentPropertySummary)
                       (ics.GetProperty vevent ics.ComponentPropertyDescription)
                       (ics.GetProperty vevent ics.ComponentPropertyLocation)
                       (adjustTZID start startProp)
                       (if allDay then time.Add start (24 * time.Hour) else start)
                       allDay targetStart targetEnd).
    { rewrite (parseEvent_parsed _ _ _ _ _ _ _ Hstart
                 ltac:(rewrite Hend; exact Htimes)).
      rewrite Hend. reflexivity. }
    split; [exact Htimes | split; [exact Hrun | split]].
    + intros e. rewrite Hrun. apply onTargetDate_no_error.
    + intros event. rewrite Hrun. unfold Main.onTargetDate.
      destruct (_ && _); [| discriminate].
      destruct (ics.GetProperty vevent ics.ComponentPropertyUniqueId),
               (ics.GetProperty vevent ics.ComponentPropertySummary),
               (ics.GetProperty vevent ics.ComponentPropertyDescription),
               (ics.GetProperty vevent ics.ComponentPropertyLocation);
        try discriminate.
      intros [= <-]. simpl. rewrite adjustTZID_unixNano.
      destruct allDay; simpl; repeat split; unfold time.Hour, time.Minute,
        time.Second, time.Nanosecond; lia.
  - apply (parseEvent_times_fail _ _ _ _ _ Hstart). rewrite Hend. exact Htimes.
Qed.

(** ** The zone adjustment (claim C7) *)

Lemma adjustTZID_tag (t : time.Time) (prop : ics.IANAProperty) :
  adjustTZID t prop = t \/ exists l, adjustTZID t prop = time.In t l.
Proof.
  unfold Main.adjustTZID.
  destruct (ics.ICalParameters prop !! "TZID") as [[|tzid rest]|]; auto.
  destruct (LoadLocation tzid) as [l|]; eauto.
Qed.

(** Claim C7: the adjustment of lines 177-196 re-expresses the start and the
    end in the zone named by a TZID that resolves; it leaves the instant as
    it is and sets at most the zone tag.  So [parseEvent] decides on the
    window, fails or panics exactly as it would without that step, and the
    event it returns has the same instants and fields. *)
Theorem zone_adjustment_keeps_instants (vevent : ics.VEvent)
        (targetStart targetEnd : time.Time) :
  (forall (t : time.Time) (prop : ics.IANAProperty),
      time.unixNano (adjustTZID t prop) = time.unixNano t
      /\ (adjustTZID t prop = t \/ exists l, adjustTZID t prop = time.In t l))
  /\ (forall (t : time.Time) (prop : ics.IANAProperty),
         time.After (adjustTZID t prop) targetStart = time.After t targetStart
         /\ time.Before (adjustTZID t prop) targetEnd = time.Before t targetEnd)
  /\ sameInstants (parseEvent vevent targetStart targetEnd)
                  (Main.parseEventUnadjusted Local zoneinfo vevent
                                             targetStart targetEnd).
Proof.
  split; [| split].
  - intros t prop. split; [apply adjustTZID_unixNano | apply adjustTZID_tag].
  - intros t prop. unfold time.After, time.Before.
    rewrite adjustTZID_unixNano. split; reflexivity.
  - unfold Main.parseEvent, Main.parseEventUnadjusted.
    destruct (ics.GetProperty vevent ics.ComponentPropertyDtStart) as [startProp|];
      [| reflexivity].
    destruct (parseTimes startProp _) as [[[start end_] allDay]|e]; [| reflexivity].
    fold (adjustedEnd end_ (ics.GetProperty vevent ics.ComponentPropertyDtEnd)).
    unfold Main.onTargetDate, time.After, time.Before.
    rewrite adjustTZID_unixNano, adjustedEnd_unixNano.
    destruct (_ && _); [| exact I].
    destruct (ics.GetProperty vevent ics.ComponentPropertyUniqueId),
             (ics.GetProperty vevent ics.ComponentPropertySummary),
             (ics.GetProperty vevent ics.ComponentPropertyDescription),
             (ics.GetProperty vevent ics.ComponentPropertyLocation);
      simpl; try reflexivity.
    rewrite adjustTZID_unixNano, adjustedEnd_unixNano. repeat split.
Qed.

(** ** The batch loop (claim C8) *)

Lemma collectEvents_skip_inside (vevent : ics.VEvent) (e : error)
      (targetStart targetEnd : time.Time)
      (before after : list ics.Component) :
  parseEvent vevent targetStart targetEnd = Return (Err e) ->
  forall events,
    collectEvents (before ++ ics.Event vevent :: after) targetStart targetEnd events
    = collectEvents (before ++ after) targetStart targetEnd events.
Proof.
  intros Hfail. induction before as [|c before IH]; intros events.
  - apply (collectEvents_skip _ _ _ _ _ _ Hfail).
  - destruct c as [v|kind]; simpl; [| apply IH].
    destruct (parseEvent v targetStart targetEnd) as [[[event|]|e']|msg]; simpl;
      auto.
Qed.

Lemma sortEvents_two (a b : Event) :
  length (Main.sortEvents [a; b]) = 2%nat
  /\ (Main.sortEvents [a; b] = [a; b] \/ Main.sortEvents [a; b] = [b; a]).
Proof.
  unfold Main.sortEvents, sort.Slice. simpl.
  destruct (time.Before (Start b) (Start a)); simpl; auto.
Qed.

(** Claim C8: without start property [parseEvent] fails with the error
    "event missing DTSTART"; the loop passes over that component only and
    goes on, wherever it stands in the document; so a document of one such
    event and two events that are returned for the target day gives exactly
    these two.  (A failure is an error returned by [parseEvent].) *)
Theorem missing_start_is_skipped (bad : ics.VEvent) :
  ics.GetProperty bad ics.ComponentPropertyDtStart = None ->
  (forall targetStart targetEnd,
      parseEvent bad targetStart targetEnd
      = Return (Err (errorString "event missing DTSTART")))
  /\ (forall targetStart targetEnd before after events,
         collectEvents (before ++ ics.Event bad :: after) targetStart targetEnd events
         = collectEvents (before ++ after) targetStart targetEnd events)
  /\ (forall (clock dayOffset : Z) (a b : ics.VEvent) (ea eb : Event),
         let targetStart :=
           fst (Main.targetWindow Local (time.mkTime clock Local) dayOffset) in
         let targetEnd :=
           snd (Main.targetWindow Local (time.mkTime clock Local) dayOffset) in
         parseEvent a targetStart targetEnd = Return (Ok (Some ea)) ->
         parseEvent b targetStart targetEnd = Return (Ok (Some eb)) ->
         forall document,
           document = [ics.Event bad; ics.Event a; ics.Event b]
           \/ document = [ics.Event a; ics.Event bad; ics.Event b]
           \/ document = [ics.Event a; ics.Event b; ics.Event bad] ->
           caljsonHandler clock dayOffset document
           = Return (Main.sortEvents [ea; eb])
           /\ length (Main.sortEvents [ea; eb]) = 2%nat).
Proof.
  intros Hstart.
  assert (Hfail : forall targetStart targetEnd,
             parseEvent bad targetStart targetEnd
             = Return (Err (errorString "event missing DTSTART"))).
  { intros. unfold Main.parseEvent. rewrite Hstart. reflexivity. }
  split; [exact Hfail | split].
  - intros. apply (collectEvents_skip_inside _ _ _ _ _ _ (Hfail _ _)).
  - intros clock dayOffset a b ea eb targetStart targetEnd Ha Hb document Hdoc.
    split; [| apply sortEvents_two].
    unfold Main.caljsonHandler.
    change (Main.targetWindow Local (time.mkTime clock Local) dayOffset)
      with (targetStart, targetEnd).
    cbv iota beta.
    destruct Hdoc as [-> | [-> | ->]]; simpl;
      rewrite ?Ha, ?Hb, ?Hfail; simpl; rewrite ?Ha, ?Hb, ?Hfail; simpl;
      rewrite ?Ha, ?Hb, ?Hfail; reflexivity.
Qed.

(** ** The order of the output (claim C9) *)

Section Sorting.
Context {A : Type}.
Variable less : A -> A -> bool.
Hypothesis less_asym : forall a b, less a b = true -> less b a = false.

(** In the part already sorted, held back to front, no element is [less]
    than the one that follows it. *)
Abbreviation R := (fun a b : A => less a b = false).

Lemma insertBack_perm (x : A) (done : list A) :
  Permutation (x :: done) (sort.insertBack less x done).
Proof.
  induction done as [|y done IH]; simpl; [reflexivity |].
  destruct (less x y); [| reflexivity].
  rewrite perm_swap. apply perm_skip, IH.
Qed.

Lemma insertBack_HdRel (x y : A) (done : list A) :
  R y x -> HdRel R y done -> HdRel R y (sort.insertBack less x done).
Proof.
  intros Hyx Hhd. destruct done as [|z done]; simpl; [constructor; exact Hyx |].
  destruct (less x z); constructor; [| exact Hyx].
  inversion Hhd; assumption.
Qed.

Lemma insertBack_Sorted (x : A) (done : list A) :
  Sorted R done -> Sorted R (sort.insertBack less x done).
Proof.
  induction 1 as [|y done Hsorted IH Hhd]; simpl.
  - repeat constructor.
  - destruct (less x y) eqn:Hxy.
    + constructor; [exact IH |].
      apply insertBack_HdRel; [apply less_asym, Hxy | exact Hhd].
    + constructor; [constructor; assumption | constructor; exact Hxy].
Qed.

Lemma fold_insertBack_Sorted (l done : list A) :
  Sorted R done ->
  Sorted R (fold_left (fun done a => sort.insertBack less a done) l done).
Proof.
  revert done. induction l as [|a l IH]; intros done Hdone; simpl.
  - exact Hdone.
  - apply IH, insertBack_Sorted, Hdone.
Qed.

Lemma fold_insertBack_perm (l done : list A) :
  Permutation (rev l ++ done)
              (fold_left (fun done a => sort.insertBack less a done) l done).
Proof.
  revert done. induction l as [|a l IH]; intros done; simpl.
  - reflexivity.
  - rewrite <- IH, <- app_assoc. simpl.
    apply Permutation_app_head, insertBack_perm.
Qed.

Lemma Slice_perm (l : list A) : Permutation l (sort.Slice less l).
Proof.
  unfold sort.Slice.
  rewrite <- Permutation_rev, <- fold_insertBack_perm, app_nil_r.
  apply Permutation_rev.
Qed.

Lemma Sorted_suffix (Q : A -> A -> Prop) (p q : list A) :
  Sorted Q (p ++ q) -> Sorted Q q.
Proof.
  induction p as [|a p IH]; simpl; [auto |].
  intros Hs. inversion Hs; auto.
Qed.

(** In the outcome, no element is [less] than its left neighbour. *)
Lemma Slice_adjacent (l : list A) (i : nat) (a b : A) :
  sort.Slice less l !! i = Some a ->
  sort.Slice less l !! S i = Some b ->
  less b a = false.
Proof.
  unfold sort.Slice.
  pose proof (fold_insertBack_Sorted l [] ltac:(constructor)) as Hs.
  set (done := fold_left _ l []) in *. clearbody done.
  intros Ha Hb.
  assert (Hsplit : rev done = (take i (rev done) ++ a :: b :: drop (S (S i)) (rev done))%list).
  { rewrite <- (take_drop_middle _ _ _ Ha) at 1.
    f_equal. f_equal. apply drop_S. exact Hb. }
  apply (f_equal (@rev A)) in Hsplit.
  rewrite rev_involutive, rev_app_distr in Hsplit. simpl in Hsplit.
  rewrite <- !app_assoc in Hsplit. simpl in Hsplit.
  rewrite Hsplit in Hs. apply Sorted_suffix in Hs.
  inversion Hs as [|? ? _ Hhd]. inversion Hhd. assumption.
Qed.

End Sorting.

Lemma sortEvents_perm (events : list Event) :
  Permutation events (Main.sortEvents events).
Proof. apply Slice_perm. Qed.

Lemma sortEvents_ascending (events : list Event) :
  ascending (Main.sortEvents events).
Proof.
  intros i a b Ha Hb. unfold time.After. rewrite Z.gtb_ltb.
  refine (Slice_adjacent (fun a b => time.Before (Start a) (Start b)) _
                         events i a b Ha Hb).
  intros x y. unfold time.Before. rewrite !Z.ltb_lt, Z.ltb_ge. lia.
Qed.

(** Claim C9: what the handler hands to the encoder is the list of the
    events collected by the loop, sorted by [sort.Slice] on the start: a
    permutation of the collected events in which no element starts after its
    right neighbour.  Events starting at 10:00, 08:00 and 09:00 come out in
    the order 08:00, 09:00, 10:00. *)
Theorem output_sorted_by_start (clock dayOffset : Z)
        (components : list ics.Component) :
  let targetStart :=
    fst (Main.targetWindow Local (time.mkTime clock Local) dayOffset) in
  let targetEnd :=
    snd (Main.targetWindow Local (time.mkTime clock Local) dayOffset) in
  match collectEvents components targetStart targetEnd [] with
  | Return collected =>
    exists output,
      caljsonHandler clock dayOffset components = Return output
      /\ Permutation collected output
      /\ ascending output
  | Panic msg => caljsonHandler clock dayOffset components = Panic msg
  end
  /\ (output ← Main.caljsonHandler time.UTC Samples.zoneinfo
                 (Samples.noon time.UTC 1) 0
                 [ics.Event Samples.review; ics.Event Samples.lunch;
                  ics.Event Samples.standup];
      Return (map (fun e => (UID e, time.unixNano (Start e))) output))
     = Return [("lunch", time.unixNano (time.Date 2024 3 1 8 0 0 0 time.UTC));
               ("standup", time.unixNano (time.Date 2024 3 1 9 0 0 0 time.UTC));
               ("review", time.unixNano (time.Date 2024 3 1 10 0 0 0 time.UTC))].
Proof.
  intros targetStart targetEnd. split; [| vm_compute; reflexivity].
  unfold Main.caljsonHandler.
  change (Main.targetWindow Local (time.mkTime clock Local) dayOffset)
    with (targetStart, targetEnd).
  cbv iota beta.
  destruct (collectEvents components targetStart targetEnd []) as [collected|msg];
    simpl; [| reflexivity].
  exists (Main.sortEvents collected).
  split; [reflexivity | split; [apply sortEvents_perm | apply sortEvents_ascending]].
Qed.

(** ** The two variants (claim C10) *)

(** Claim C10: [parseICalTime] and [parseEvent] of src/main.go and of
    src/unnamed/part_000 return the same result on every input, and so do
    the loop and the handler built on them; whatever value [format] is
    declared with in main.go, [parseICalTime] returns the same. *)
Theorem variants_agree :
  (forall (format0 value : string) (prop : ics.IANAProperty),
      Main.parseICalTimeFrom Local zoneinfo format0 value prop
      = Gin.parseICalTime Local zoneinfo value prop)
  /\ (forall (value : string) (prop : ics.IANAProperty),
         Main.parseICalTime Local zoneinfo value prop
         = Gin.parseICalTime Local zoneinfo value prop)
  /\ (forall (vevent : ics.VEvent) (targetStart targetEnd : time.Time),
         Main.parseEvent Local zoneinfo vevent targetStart targetEnd
         = Gin.parseEvent Local zoneinfo vevent targetStart targetEnd)
  /\ (forall (clock dayOffset : Z) (components : list ics.Component),
         Main.caljsonHandler Local zoneinfo clock dayOffset components
         = Gin.caljsonHandler Local zoneinfo clock dayOffset components).
Proof.
  assert (Htime : forall format0 value prop,
             Main.parseICalTimeFrom Local zoneinfo format0 value prop
             = Gin.parseICalTime Local zoneinfo value prop).
  { intros. unfold Main.parseICalTimeFrom, Gin.parseICalTime.
    destruct (strings.HasSuffix value "Z"); reflexivity. }
  assert (Htimes : forall startProp endProp,
             Main.parseTimes Local zoneinfo startProp endProp
             = Gin.parseTimes Local zoneinfo startProp endProp).
  { intros. unfold Main.parseTimes, Gin.parseTimes, Main.parseICalTime.
    destruct (isDate _); [reflexivity |].
    rewrite Htime. destruct (Gin.parseICalTime _ _ _ _); simpl; [| reflexivity].
    destruct endProp; [rewrite Htime |]; reflexivity. }
  assert (Hevent : forall vevent targetStart targetEnd,
             Main.parseEvent Local zoneinfo vevent targetStart targetEnd
             = Gin.parseEvent Local zoneinfo vevent targetStart targetEnd).
  { intros. unfold Main.parseEvent, Gin.parseEvent.
    destruct (ics.GetProperty vevent ics.ComponentPropertyDtStart); [| reflexivity].
    rewrite Htimes. reflexivity. }
  assert (Hloop : forall components targetStart targetEnd events,
             Main.collectEvents Local zoneinfo components targetStart targetEnd events
             = Gin.collectEvents Local zoneinfo components targetStart targetEnd events).
  { induction components as [|[vevent|kind] components IH]; intros; simpl;
      [reflexivity | | apply IH].
    rewrite Hevent.
    destruct (Gin.parseEvent _ _ _ _ _) as [[[event|]|e]|msg]; simpl; auto. }
  split; [exact Htime | split; [intros; apply Htime | split; [exact Hevent |]]].
  intros. unfold Main.caljsonHandler, Gin.caljsonHandler.
  change (Gin.targetWindow Local (time.mkTime clock Local) dayOffset)
    with (Main.targetWindow Local (time.mkTime clock Local) dayOffset).
  destruct (Main.targetWindow _ _ _) as [targetStart targetEnd].
  rewrite Hloop. reflexivity.
Qed.

End Properties.

(** ** The model of package time on examples *)

Example epoch : time.Date 1970 1 1 0 0 0 0 time.UTC = time.mkTime 0 time.UTC.
Proof. vm_compute; reflexivity. Qed.

Example leap_day :
  time.date (time.Date 2024 2 29 23 59 59 0 time.UTC) = (2024, 2, 29)
  /\ time.date (time.Date 2023 2 29 0 0 0 0 time.UTC) = (2023, 3, 1)
  /\ time.date (time.Date 1900 3 1 0 0 0 0 time.UTC) = (1900, 3, 1)
  /\ time.date (time.Add (time.Date 1900 3 1 0 0 0 0 time.UTC) (- 24 * time.Hour))
     = (1900, 2, 28).
Proof. repeat split; vm_compute; reflexivity. Qed.

(** [day=-1] on the first of March 2024 (09:30 in New York) gives the
    29th of February, from midnight to midnight in New York (05:00 UTC). *)
Example day_before_first_of_month :
  let now := time.Date 2024 3 1 9 30 0 0 Samples.newYork in
  let window := Main.targetWindow Samples.newYork now (-1) in
  time.unixNano (fst window)
  = time.unixNano (time.Date 2024 2 29 5 0 0 0 time.UTC)
  /\ time.unixNano (snd window)
     = time.unixNano (time.Date 2024 3 1 5 0 0 0 time.UTC).
Proof. split; vm_compute; reflexivity. Qed.

Example parse_rejects :
  time.ParseInLocation "20060102" "20240230" time.UTC
  = Err (ParseError "20060102" "20240230" ": day out of range")
  /\ time.ParseInLocation "20060102" "20241301" time.UTC
     = Err (ParseError "20060102" "20241301" ": month out of range")
  /\ time.ParseInLocation "20060102T150405" "20240301T240000" time.UTC
     = Err (ParseError "20060102T150405" "20240301T240000" ": hour out of range")
  /\ time.ParseInLocation "20060102T150405" "2024-03-01T10:00:00" time.UTC
     = Err (ParseError "20060102T150405" "2024-03-01T10:00:00" "")
  /\ time.ParseInLocation "20060102" "20240301T100000" time.UTC
     = Err (ParseError "20060102" "20240301T100000" ": extra text: T100000").
Proof. repeat split; vm_compute; reflexivity. Qed.

(** ** The window test and the text properties (claims C1 and C3) *)

(** Claim C1: an event whose start and end parse to S and E is returned if
    and only if E > W0 and S < W1.  The code departs from it on an event that
    overlaps the window and lacks a text property: on [Samples.noSummary],
    which starts exactly at W0 (1 March 2024, 00:00 UTC) and ends at 11:00,
    [parseEvent] panics on line 202 and returns no event.  (With the four text
    properties there the equivalence holds:
    [parseEvent_found_iff_overlaps].) *)
Theorem overlapping_event_without_summary_panics :
  let W0 := fst (Samples.march time.UTC 1) in
  let W1 := snd (Samples.march time.UTC 1) in
  let S := time.Date 2024 3 1 0 0 0 0 time.UTC in
  let E := time.Date 2024 3 1 11 0 0 0 time.UTC in
  Main.parseTimes time.UTC Samples.zoneinfo
                  (Samples.prop "DTSTART" "20240301T000000Z")
                  (ics.GetProperty Samples.noSummary ics.ComponentPropertyDtEnd)
  = Ok (S, E, false)
  /\ time.unixNano S = time.unixNano W0
  /\ time.unixNano W0 < time.unixNano E
  /\ time.unixNano S < time.unixNano W1
  /\ Main.parseEvent time.UTC Samples.zoneinfo Samples.noSummary W0 W1
     = Panic "runtime error: invalid memory address or nil pointer dereference".
Proof. repeat split; vm_compute; reflexivity. Qed.

(** Claim C3: an overlapping event without summary, description, location or
    unique id is returned with empty strings in their place.  The code
    departs from it: [parseEvent] reads [Value] through the nil pointers of
    lines 201-204 and panics, and the panic leaves the loop of the handler,
    so the two other events of the document are lost with it. *)
Theorem event_without_text_properties_panics :
  let W0 := fst (Samples.march time.UTC 1) in
  let W1 := snd (Samples.march time.UTC 1) in
  Main.parseTimes time.UTC Samples.zoneinfo
                  (Samples.prop "DTSTART" "20240301T100000Z")
                  (ics.GetProperty Samples.bare ics.ComponentPropertyDtEnd)
  = Ok (time.Date 2024 3 1 10 0 0 0 time.UTC,
        time.Date 2024 3 1 11 0 0 0 time.UTC, false)
  /\ Main.parseEvent time.UTC Samples.zoneinfo Samples.bare W0 W1
     = Panic "runtime error: invalid memory address or nil pointer dereference"
  /\ Main.caljsonHandler time.UTC Samples.zoneinfo (Samples.noon time.UTC 1) 0
       [ics.Event Samples.standup; ics.Event Samples.bare; ics.Event Samples.review]
     = Panic "runtime error: invalid memory address or nil pointer dereference"
  /\ (events ← Main.caljsonHandler time.UTC Samples.zoneinfo
                  (Samples.noon time.UTC 1) 0
                  [ics.Event Samples.standup; ics.Event Samples.review];
      Return (map UID events))
     = Return ["standup"; "review"].
Proof. repeat split; vm_compute; reflexivity. Qed.

(** ** Reading a timed value (claims C4 and C2) *)

(** [DTSTART;TZID=America/New_York:20240615T090000] is 09:00 on the wall
    clock of New York, 13:00 UTC. *)
Lemma parseICalTime_cases_witness :
  let prop := Samples.propWith "DTSTART" "TZID" "America/New_York" "20240615T090000" in
  Main.parseICalTime Samples.tokyo Samples.zoneinfo "20240615T090000" prop
  = time.ParseInLocation "20060102T150405" "20240615T090000" Samples.newYork
  /\ match time.ParseInLocation "20060102T150405" "20240615T090000" Samples.newYork with
     | Ok t => Some (time.unixNano t, time.locName (time.loc t))
     | Err _ => None
     end
     = Some (time.unixNano (time.Date 2024 6 15 13 0 0 0 time.UTC),
             "America/New_York").
Proof.
  split.
  - refine (proj1 (proj1 (proj2 (parseICalTime_cases Samples.tokyo Samples.zoneinfo
                                   "20240615T090000" _))
                     _ "America/New_York" [] Samples.newYork _ _)).
    + vm_compute; reflexivity.
    + vm_compute; reflexivity.
    + reflexivity.
  - vm_compute; reflexivity.
Defined.

(** Claim C2 as stated fails: with [TZID=Mars/Olympus] on a start value
    without Z, extraction fails with the error of the zone lookup and the
    loop passes over the event, while the same event without the parameter
    is returned. *)
Lemma unresolvable_zone_skips_event :
  let W0 := fst (Samples.march time.UTC 1) in
  let W1 := snd (Samples.march time.UTC 1) in
  Main.parseEvent time.UTC Samples.zoneinfo (Samples.zoned "Mars/Olympus") W0 W1
  = Return (Err (errUnknownTimeZone "Mars/Olympus"))
  /\ Main.collectEvents time.UTC Samples.zoneinfo
       [ics.Event (Samples.zoned "Mars/Olympus")] W0 W1 []
     = Return []
  /\ (events ← Main.collectEvents time.UTC Samples.zoneinfo
                 [ics.Event Samples.unzoned] W0 W1 [];
      Return (map (fun e => (UID e, time.unixNano (Start e))) events))
     = Return [("zoned", time.unixNano (time.Date 2024 3 1 10 0 0 0 time.UTC))].
Proof. repeat split; vm_compute; reflexivity. Qed.

Lemma unresolvable_zone_fails_witness :
  let W0 := fst (Samples.march time.UTC 1) in
  let W1 := snd (Samples.march time.UTC 1) in
  Main.parseEvent time.UTC Samples.zoneinfo (Samples.zoned "Mars/Olympus") W0 W1
  = Return (Err (errUnknownTimeZone "Mars/Olympus")).
Proof.
  refine (proj1 (unresolvable_zone_fails time.UTC Samples.zoneinfo
                   (Samples.zoned "Mars/Olympus")
                   (Samples.propWith "DTSTART" "TZID" "Mars/Olympus" "20240301T100000")
                   (errUnknownTimeZone "Mars/Olympus") _ _ _ _ _)).
  - vm_compute; reflexivity.
  - vm_compute; reflexivity.
  - left. split; [vm_compute; reflexivity |].
    exists "Mars/Olympus", []. split; vm_compute; reflexivity.
Defined.

(** ** An event without end (claim C5) *)

(** [DTSTART;VALUE=DATE:20240301] without [DTEND] runs from 1 March to
    2 March, 00:00 UTC. *)
Lemma missing_end_defaults_witness :
  Main.parseTimes time.UTC Samples.zoneinfo
                  (Samples.propWith "DTSTART" "VALUE" "DATE" "20240301") None
  = Ok (time.Date 2024 3 1 0 0 0 0 time.UTC,
        time.Date 2024 3 2 0 0 0 0 time.UTC, true).
Proof.
  pose proof (missing_end_defaults time.UTC Samples.zoneinfo Samples.holiday
                (Samples.propWith "DTSTART" "VALUE" "DATE" "20240301")
                (fst (Samples.march time.UTC 1)) (snd (Samples.march time.UTC 1))
                ltac:(vm_compute; reflexivity) ltac:(vm_compute; reflexivity))
    as Hdefault.
  vm_compute in Hdefault. destruct Hdefault as [Htimes _].
  vm_compute. exact Htimes.
Defined.

(** ** The batch loop (claim C8) *)

(** A document with [Samples.noStart] between two events of the target day
    gives two events. *)
Lemma missing_start_is_skipped_witness :
  exists output,
    Main.caljsonHandler time.UTC Samples.zoneinfo (Samples.noon time.UTC 1) 0
      [ics.Event Samples.standup; ics.Event Samples.noStart; ics.Event Samples.review]
    = Return output
    /\ length output = 2%nat.
Proof.
  eexists.
  refine (proj2 (proj2 (missing_start_is_skipped time.UTC Samples.zoneinfo
                          Samples.noStart _))
                (Samples.noon time.UTC 1) 0 Samples.standup Samples.review
                _ _ _ _ _ _).
  - vm_compute; reflexivity.
  - vm_compute; reflexivity.
  - vm_compute; reflexivity.
  - right; left; reflexivity.
Defined.

(** ** All-day events and the local day (claim C6) *)

(** The instant of a date in a zone of fixed offset. *)
Lemma Date_FixedZone (year month day hour min sec nsec : Z)
      (name : string) (offset : Z) :
  time.unixNano (time.Date year month day hour min sec nsec
                           (time.FixedZone name offset))
  = time.unixNano (time.Date year month day hour min sec nsec time.UTC)
    - offset * 1000000000.
Proof. unfold time.Date, time.FixedZone, time.UTC. simpl. lia. Qed.

(** The all-day event of 1 March 2024 is returned for the local day 2 March
    exactly in the zones east of UTC, and for the local day 29 February
    exactly in the zones west of UTC. *)
Lemma holiday_on_neighbouring_days (name : string) (offset : Z)
      (zoneinfo : string -> option time.Location) :
  -86400 < offset < 86400 ->
  let Local := time.FixedZone name offset in
  let day (d : Z) (month : Z) :=
    (time.Date 2024 month d 0 0 0 0 Local,
     time.Add (time.Date 2024 month d 0 0 0 0 Local) (24 * time.Hour)) in
  ((exists event, Main.parseEvent Local zoneinfo Samples.holiday
                                  (fst (day 1 3)) (snd (day 1 3))
                  = Return (Ok (Some event))))
  /\ ((exists event, Main.parseEvent Local zoneinfo Samples.holiday
                                     (fst (day 2 3)) (snd (day 2 3))
                     = Return (Ok (Some event)))
      <-> 0 < offset)
  /\ ((exists event, Main.parseEvent Local zoneinfo Samples.holiday
                                     (fst (day 29 2)) (snd (day 29 2))
                     = Return (Ok (Some event)))
      <-> offset < 0).
Proof.
  intros Hoffset Local day.
  assert (Htimes : Main.parseTimes Local zoneinfo
                     (Samples.propWith "DTSTART" "VALUE" "DATE" "20240301")
                     (ics.GetProperty Samples.holiday ics.ComponentPropertyDtEnd)
                   = Ok (time.mkTime 1709251200000000000 time.UTC,
                         time.mkTime 1709337600000000000 time.UTC, true)).
  { unfold Main.parseTimes.
    change (isDate _) with true. cbv iota.
    rewrite (Parse_zoneless _ _ _ zoneless_date).
    vm_compute. reflexivity. }
  assert (Hiff : forall targetStart targetEnd,
             (exists event, Main.parseEvent Local zoneinfo Samples.holiday
                                            targetStart targetEnd
                            = Return (Ok (Some event)))
             <-> overlaps (time.mkTime 1709251200000000000 time.UTC)
                          (time.mkTime 1709337600000000000 time.UTC)
                          targetStart targetEnd).
  { intros. eapply parseEvent_found_iff_overlaps;
      [reflexivity | exact Htimes | reflexivity ..]. }
  assert (Hday : forall d month,
             time.unixNano (fst (day d month))
             = time.unixNano (time.Date 2024 month d 0 0 0 0 time.UTC)
               - offset * 1000000000
             /\ time.unixNano (snd (day d month))
                = time.unixNano (time.Date 2024 month d 0 0 0 0 time.UTC)
                  - offset * 1000000000 + 86400000000000).
  { intros. unfold day, Local. cbn [fst snd]. unfold time.Add.
    cbn [time.unixNano]. rewrite Date_FixedZone.
    change (24 * time.Hour) with 86400000000000. lia. }
  rewrite !Hiff. unfold overlaps.
  destruct (Hday 1 3) as [-> ->], (Hday 2 3) as [-> ->], (Hday 29 2) as [-> ->].
  change (time.unixNano (time.Date 2024 3 1 0 0 0 0 time.UTC))
    with 1709251200000000000.
  change (time.unixNano (time.Date 2024 3 2 0 0 0 0 time.UTC))
    with 1709337600000000000.
  change (time.unixNano (time.Date 2024 2 29 0 0 0 0 time.UTC))
    with 1709164800000000000.
  simpl time.unixNano. lia.
Qed.

(** Claim C6: in every local zone the all-day event of 1 March 2024 without
    [DTEND] ends on 2 March, is returned for the local day 1 March and is
    not returned for the local day 2 March.  The code departs from it east
    of UTC: the dates are read as midnights in UTC (line 146) and the window
    is a day of the local zone (line 89), so in Tokyo (UTC+9) the local
    2 March starts at 15:00 UTC of 1 March and the event, ending at 00:00 UTC
    of 2 March, is returned for it.  In New York the event is not returned
    for 2 March. *)
Theorem all_day_event_returned_for_next_day_in_tokyo :
  let W0 := fst (Samples.march Samples.tokyo 2) in
  let W1 := snd (Samples.march Samples.tokyo 2) in
  W0 = time.Date 2024 3 2 0 0 0 0 Samples.tokyo
  /\ W1 = time.Add W0 (24 * time.Hour)
  /\ time.unixNano W0 = time.unixNano (time.Date 2024 3 1 15 0 0 0 time.UTC)
  /\ Main.parseEvent Samples.tokyo Samples.zoneinfo Samples.holiday W0 W1
     = Return (Ok (Some (mkEvent "holiday" "Holiday" "" "Room 1"
                                 (time.Date 2024 3 1 0 0 0 0 time.UTC)
                                 (time.Date 2024 3 2 0 0 0 0 time.UTC)
                                 true)))
  /\ Main.caljsonHandler Samples.tokyo Samples.zoneinfo
       (Samples.noon Samples.tokyo 2) 0 [ics.Event Samples.holiday]
     = Return [mkEvent "holiday" "Holiday" "" "Room 1"
                       (time.Date 2024 3 1 0 0 0 0 time.UTC)
                       (time.Date 2024 3 2 0 0 0 0 time.UTC)
                       true]
  /\ Main.parseEvent Samples.newYork Samples.zoneinfo Samples.holiday
       (fst (Samples.march Samples.newYork 2))
       (snd (Samples.march Samples.newYork 2))
     = Return (Ok None).
Proof. repeat split; vm_compute; reflexivity. Qed.

(** * Further properties *)

Local Open Scope list_scope.

(** ** The civil calendar of the time model *)

Lemma In_upto (n : nat) : forall from z,
    from <= z < from + Z.of_nat n -> In z (upto n from).
Proof.
  induction n as [|n IH]; intros from z Hz; [lia |].
  simpl. destruct (Z.eq_dec from z); [left; assumption | right; apply IH; lia].
Qed.

(** The 400 years of the era, the 366 days of a year and the 4800 months of
    the era, one by one. *)
Lemma endpoints_era : forallb endpointsOk (upto 400 0) = true.
Proof. vm_compute. reflexivity. Qed.
Lemma monthDay_year : forallb monthDayOk (upto 366 0) = true.
Proof. vm_compute. reflexivity. Qed.
Lemma base_era : forallb baseOk (upto 400 0) = true.
Proof. vm_compute. reflexivity. Qed.

Lemma yearOfEra_step (a : Z) :
  0 <= a < 146097 -> yearOfEra a <= yearOfEra (a + 1).
Proof.
  intros Ha. unfold yearOfEra. apply Z.div_le_mono; [lia |].
  Z.div_mod_to_equations; lia.
Qed.

Lemma yearOfEra_mono (a b : Z) :
  0 <= a <= b -> b <= 146097 -> yearOfEra a <= yearOfEra b.
Proof.
  intros Hab Hb.
  replace b with (a + Z.of_nat (Z.to_nat (b - a))) by lia.
  assert (Hn : a + Z.of_nat (Z.to_nat (b - a)) <= 146097) by lia.
  induction (Z.to_nat (b - a)) as [|n IH]; [replace (a + Z.of_nat 0) with a by lia; lia |].
  etransitivity; [apply IH; lia |].
  replace (a + Z.of_nat (S n)) with (a + Z.of_nat n + 1) by lia.
  apply yearOfEra_step. lia.
Qed.

Lemma marchYearStart_step (k : Z) :
  0 <= k -> 365 <= marchYearStart (k + 1) - marchYearStart k <= 366.
Proof. intros Hk. unfold marchYearStart. Z.div_mod_to_equations. lia. Qed.

Lemma year_found (doe : Z) (n : nat) :
  0 <= doe < marchYearStart (Z.of_nat n) ->
  exists k, 0 <= k < Z.of_nat n
            /\ marchYearStart k <= doe < marchYearStart (k + 1).
Proof.
  induction n as [|n IH]; intros Hdoe.
  - assert (Hzero : marchYearStart (Z.of_nat 0%nat) = 0) by reflexivity. lia.
  - destruct (Z_lt_dec doe (marchYearStart (Z.of_nat n))) as [Hlt|Hge].
    + destruct (IH ltac:(lia)) as (k & Hk & Hin). exists k. split; [lia | exact Hin].
    + exists (Z.of_nat n). split; [lia |].
      replace (Z.of_nat n + 1) with (Z.of_nat (S n)) by lia. lia.
Qed.

Lemma yearOfEra_spec (doe : Z) :
  0 <= doe < 146097 ->
  0 <= yearOfEra doe < 400
  /\ 0 <= doe - marchYearStart (yearOfEra doe) < 366.
Proof.
  intros Hdoe.
  destruct (Z.eq_dec doe 146096) as [-> | Hlast]; [vm_compute; intuition congruence |].
  assert (Hera : marchYearStart (Z.of_nat 400%nat) = 146096) by reflexivity.
  destruct (year_found doe 400 ltac:(lia)) as (k & Hk & Hin).
  pose proof (proj1 (forallb_forall _ _) endpoints_era k
                (In_upto 400 0 k ltac:(lia))) as Hends.
  unfold endpointsOk in Hends. rewrite andb_true_iff, !Z.eqb_eq in Hends.
  destruct Hends as [Hlow Hhigh].
  pose proof (marchYearStart_step k ltac:(lia)) as Hlen.
  assert (Hstart : 0 <= marchYearStart k).
  { unfold marchYearStart. Z.div_mod_to_equations. lia. }
  assert (Hnext : marchYearStart (k + 1) <= 146097).
  { unfold marchYearStart. Z.div_mod_to_equations. lia. }
  assert (Hyear : yearOfEra doe = k).
  { pose proof (yearOfEra_mono (marchYearStart k) doe ltac:(lia) ltac:(lia)).
    pose proof (yearOfEra_mono doe (marchYearStart (k + 1) - 1)
                  ltac:(lia) ltac:(lia)).
    lia. }
  rewrite Hyear. lia.
Qed.

Lemma civilOfDays_unfold (days : Z) :
  time.civilOfDays days
  = let z := days + 719468 in
    let era := z / 146097 in
    let doe := z - era * 146097 in
    let yoe := yearOfEra doe in
    let doy := doe - marchYearStart yoe in
    let '(m, d) := monthDay doy in
    (yoe + era * 400 + (if m <=? 2 then 1 else 0), m, d).
Proof. reflexivity. Qed.

Lemma dayCount_day (year month day : Z) :
  dayCount year month day = dayCount year month 1 + (day - 1).
Proof. unfold dayCount. lia. Qed.

Lemma civilOfDays_era0 (days : Z) :
  -719468 <= days < -719468 + 146097 ->
  let '(y, m, d) := time.civilOfDays days in
  1 <= m <= 12 /\ dayCount y m d = days.
Proof.
  intros Hdays. rewrite civilOfDays_unfold. cbv zeta.
  assert (Hera : (days + 719468) / 146097 = 0) by (apply Z.div_small; lia).
  rewrite Hera.
  replace (days + 719468 - 0 * 146097) with (days + 719468) by lia.
  destruct (yearOfEra_spec (days + 719468) ltac:(lia)) as [Hyear Hdoy].
  set (k := yearOfEra (days + 719468)) in *.
  set (doy := days + 719468 - marchYearStart k) in *.
  pose proof (proj1 (forallb_forall _ _) monthDay_year doy
                (In_upto 366 0 doy ltac:(lia))) as Hmonth.
  unfold monthDayOk in Hmonth.
  destruct (monthDay doy) as [m d].
  rewrite !andb_true_iff, !Z.leb_le, Z.eqb_eq in Hmonth.
  destruct Hmonth as [[Hm1 Hm12] Hbefore].
  pose proof (proj1 (forallb_forall _ _) base_era k
                (In_upto 400 0 k ltac:(lia))) as Hbase.
  unfold baseOk in Hbase.
  pose proof (proj1 (forallb_forall _ _) Hbase m
                (In_upto 12 1 m ltac:(lia))) as Hcount.
  apply Z.eqb_eq in Hcount.
  split; [lia |].
  rewrite dayCount_day.
  replace (k + 0 * 400 + (if m <=? 2 then 1 else 0))
    with (k + (if m <=? 2 then 1 else 0)) by lia.
  rewrite Hcount. unfold doy in Hbefore. lia.
Qed.

Lemma leapsThrough_400 (year k : Z) :
  time.leapsThrough (year + 400 * k) = time.leapsThrough year + 97 * k.
Proof.
  unfold time.leapsThrough.
  replace (year + 400 * k) with (year + (100 * k) * 4) at 1 by lia.
  replace (year + 400 * k) with (year + (4 * k) * 100) at 1 by lia.
  replace (year + 400 * k) with (year + k * 400) by lia.
  rewrite !Z.div_add by lia. lia.
Qed.

Lemma isLeap_400 (year k : Z) :
  time.isLeap (year + 400 * k) = time.isLeap year.
Proof.
  unfold time.isLeap.
  replace ((year + 400 * k) mod 4) with (year mod 4)
    by (replace (year + 400 * k) with (year + (100 * k) * 4) by lia;
        symmetry; apply Z_mod_plus_full).
  replace ((year + 400 * k) mod 100) with (year mod 100)
    by (replace (year + 400 * k) with (year + (4 * k) * 100) by lia;
        symmetry; apply Z_mod_plus_full).
  replace ((year + 400 * k) mod 400) with (year mod 400)
    by (replace (year + 400 * k) with (year + k * 400) by lia;
        symmetry; apply Z_mod_plus_full).
  reflexivity.
Qed.

Lemma dayCount_400 (year month day k : Z) :
  dayCount (year + 400 * k) month day = dayCount year month day + 146097 * k.
Proof.
  unfold dayCount, time.daysSinceEpoch.
  replace (year + 400 * k - 1) with (year - 1 + 400 * k) by lia.
  rewrite leapsThrough_400, isLeap_400. lia.
Qed.

Lemma civilOfDays_400 (days k : Z) :
  time.civilOfDays (days + 146097 * k)
  = let '(y, m, d) := time.civilOfDays days in (y + 400 * k, m, d).
Proof.
  unfold time.civilOfDays.
  replace (days + 146097 * k + 719468) with (days + 719468 + k * 146097) by lia.
  rewrite Z.div_add by lia.
  set (z := days + 719468). set (era := z / 146097).
  replace (z + k * 146097 - (era + k) * 146097) with (z - era * 146097) by lia.
  set (doe := z - era * 146097).
  cbv zeta. f_equal. f_equal. lia.
Qed.

(** Every day number is the day number of the date [civilOfDays] gives for
    it, and the month of that date is a month of the calendar. *)
Lemma civilOfDays_dayCount (days : Z) :
  let '(y, m, d) := time.civilOfDays days in
  1 <= m <= 12 /\ dayCount y m d = days.
Proof.
  set (k := (days + 719468) / 146097).
  set (days0 := days - 146097 * k).
  assert (Hrange : -719468 <= days0 < -719468 + 146097).
  { unfold days0, k.
    pose proof (Z.mod_pos_bound (days + 719468) 146097 ltac:(lia)) as Hmod.
    rewrite Z.mod_eq in Hmod by lia. lia. }
  pose proof (civilOfDays_era0 days0 Hrange) as Hok.
  assert (Hshift : time.civilOfDays days
                   = let '(y, m, d) := time.civilOfDays days0 in
                     (y + 400 * k, m, d)).
  { rewrite <- civilOfDays_400. f_equal. unfold days0. lia. }
  rewrite Hshift.
  destruct (time.civilOfDays days0) as [[y m] d].
  rewrite dayCount_400. unfold days0 in Hok. lia.
Qed.

(** ** The target day in a zone without transitions (lines 87-90) *)

Lemma Date_mkTime (year month day hour min sec nsec : Z) (l : time.Location) :
  time.Date year month day hour min sec nsec l
  = time.mkTime (time.unixNano (time.Date year month day hour min sec nsec l)) l.
Proof. reflexivity. Qed.

(** The instant of a date of the calendar in a zone without transitions. *)
Lemma Date_fixedOffset (year month day hour min sec nsec : Z)
      (l : time.Location) (offset : Z) :
  fixedOffset l offset ->
  1 <= month <= 12 ->
  0 <= nsec < 1000000000 ->
  time.unixNano (time.Date year month day hour min sec nsec l)
  = (dayCount year month day * 86400 + hour * 3600 + min * 60 + sec - offset)
    * 1000000000 + nsec.
Proof.
  intros Hfixed Hmonth Hnsec. unfold time.Date. cbv zeta.
  rewrite !Hfixed. cbn [time.unixNano].
  rewrite (Z.div_small (month - 1) 12), (Z.mod_small (month - 1) 12) by lia.
  rewrite (Z.div_small nsec), (Z.mod_small nsec) by lia.
  unfold dayCount.
  replace (year + 0) with year by lia.
  replace (month - 1 + 1) with month by lia. lia.
Qed.

(** [AddDate(0, 0, days)] moves the instant by [days] times 24 hours. *)
Lemma AddDate_fixedOffset (clock days : Z) (l : time.Location) (offset : Z) :
  fixedOffset l offset ->
  time.AddDate (time.mkTime clock l) 0 0 days
  = time.mkTime (clock + days * 86400000000000) l.
Proof.
  intros Hfixed. unfold time.AddDate, time.date, time.abs, time.unixSec.
  cbn [time.unixNano time.loc]. rewrite !Hfixed.
  change time.Second with 1000000000.
  pose proof (civilOfDays_dayCount ((clock / 1000000000 + offset) / 86400))
    as Hcivil.
  destruct (time.civilOfDays _) as [[year month] day].
  destruct Hcivil as (Hmonth & Hcount).
  rewrite Date_mkTime. f_equal.
  rewrite (Date_fixedOffset _ _ _ _ _ _ _ _ _ Hfixed)
    by (try lia; apply Z.mod_pos_bound; lia).
  assert (Hday : dayCount (year + 0) (month + 0) (day + days)
                 = (clock / 1000000000 + offset) / 86400 + days).
  { rewrite <- Hcount, !Z.add_0_r. unfold dayCount. lia. }
  rewrite Hday. clear Hday Hcount Hmonth.
  pose proof (Z.div_mod clock 1000000000 ltac:(lia)) as Hclock.
  pose proof (Z.div_mod (clock / 1000000000 + offset) 86400 ltac:(lia)) as Hwall.
  set (secs := (clock / 1000000000 + offset) mod 86400) in *.
  assert (Hsecs : secs / 3600 * 3600 + secs mod 3600 / 60 * 60 + secs mod 60 = secs).
  { clearbody secs. clear. Z.div_mod_to_equations. lia. }
  lia.
Qed.

Lemma targetStart_fixedOffset (Local : time.Location) (offset clock dayOffset : Z) :
  fixedOffset Local offset ->
  fst (Main.targetWindow Local (time.mkTime clock Local) dayOffset)
  = time.mkTime (((localDay clock offset + dayOffset) * 86400 - offset)
                 * 1000000000) Local.
Proof.
  intros Hfixed. unfold Main.targetWindow. cbn [fst].
  rewrite (AddDate_fixedOffset _ _ _ _ Hfixed).
  unfold time.Year, time.Month, time.Day, time.date, time.abs, time.unixSec.
  cbn [time.unixNano time.loc]. rewrite !Hfixed.
  change time.Second with 1000000000.
  assert (Hday : ((clock + dayOffset * 86400000000000) / 1000000000 + offset)
                 / 86400
                 = localDay clock offset + dayOffset).
  { unfold localDay. Z.div_mod_to_equations. lia. }
  rewrite Hday.
  pose proof (civilOfDays_dayCount (localDay clock offset + dayOffset)) as Hcivil.
  destruct (time.civilOfDays _) as [[year month] day]. cbn [fst snd].
  destruct Hcivil as (Hmonth & Hcount).
  rewrite Date_mkTime. f_equal.
  rewrite (Date_fixedOffset _ _ _ _ _ _ _ _ _ Hfixed) by lia.
  rewrite Hcount. lia.
Qed.

Lemma targetWindow_end (Local : time.Location) (now : time.Time) (dayOffset : Z) :
  Main.targetWindow Local now dayOffset
  = (fst (Main.targetWindow Local now dayOffset),
     time.Add (fst (Main.targetWindow Local now dayOffset)) (24 * time.Hour)).
Proof. reflexivity. Qed.

(** The target day, for a clock reading [clock] and a day offset, in a zone
    that keeps one offset from UTC: it starts at the local midnight of the
    date [dayOffset] days after the local date of the clock, lasts 24 hours
    and holds the clock reading moved by [dayOffset] days.  ([dayOffset] is
    kept in a range where the day arithmetic of the library stays within its
    machine integers.) *)
Theorem target_day_in_fixed_zone (Local : time.Location) (offset clock dayOffset : Z) :
  fixedOffset Local offset ->
  -1000000000 <= dayOffset <= 1000000000 ->
  let targetStart :=
    fst (Main.targetWindow Local (time.mkTime clock Local) dayOffset) in
  let targetEnd :=
    snd (Main.targetWindow Local (time.mkTime clock Local) dayOffset) in
  targetStart
  = time.mkTime (((localDay clock offset + dayOffset) * 86400 - offset)
                 * 1000000000) Local
  /\ time.unixNano targetEnd = time.unixNano targetStart + 86400000000000
  /\ time.unixNano targetStart
     <= clock + dayOffset * 86400000000000
     < time.unixNano targetEnd
  /\ time.abs targetStart mod 86400 = 0
  /\ time.date targetStart = time.civilOfDays (localDay clock offset + dayOffset).
Proof.
  intros Hfixed _ targetStart targetEnd.
  pose proof (targetStart_fixedOffset Local offset clock dayOffset Hfixed)
    as Hstart.
  fold targetStart in Hstart.
  assert (Hend : time.unixNano targetEnd = time.unixNano targetStart + 86400000000000).
  { reflexivity. }
  split; [exact Hstart | split; [exact Hend | split; [| split]]].
  - rewrite Hend, Hstart. cbn [time.unixNano]. unfold localDay.
    Z.div_mod_to_equations. lia.
  - rewrite Hstart. unfold time.abs, time.unixSec. cbn [time.unixNano time.loc].
    rewrite Hfixed. change time.Second with 1000000000.
    rewrite Z.div_mul by lia.
    replace ((localDay clock offset + dayOffset) * 86400 - offset + offset)
      with ((localDay clock offset + dayOffset) * 86400) by lia.
    apply Z.mod_mul. lia.
  - rewrite Hstart. unfold time.date, time.abs, time.unixSec.
    cbn [time.unixNano time.loc]. rewrite Hfixed.
    change time.Second with 1000000000.
    rewrite Z.div_mul by lia.
    replace ((localDay clock offset + dayOffset) * 86400 - offset + offset)
      with ((localDay clock offset + dayOffset) * 86400) by lia.
    rewrite Z.div_mul by lia. reflexivity.
Qed.

(** In such a zone the target days of successive offsets follow one another
    without gap or overlap, and all the clock readings of one local day give
    the same target day. *)
Theorem target_days_tile (Local : time.Location) (offset clock clock' dayOffset : Z) :
  fixedOffset Local offset ->
  -1000000000 <= dayOffset < 1000000000 ->
  fst (Main.targetWindow Local (time.mkTime clock Local) (dayOffset + 1))
  = snd (Main.targetWindow Local (time.mkTime clock Local) dayOffset)
  /\ (localDay clock offset = localDay clock' offset ->
      Main.targetWindow Local (time.mkTime clock Local) dayOffset
      = Main.targetWindow Local (time.mkTime clock' Local) dayOffset).
Proof.
  intros Hfixed _.
  pose proof (targetStart_fixedOffset Local offset clock (dayOffset + 1) Hfixed)
    as Hnext.
  pose proof (targetStart_fixedOffset Local offset clock dayOffset Hfixed)
    as Hthis.
  pose proof (targetStart_fixedOffset Local offset clock' dayOffset Hfixed)
    as Hother.
  split.
  - rewrite Hnext, targetWindow_end. cbn [snd].
    rewrite Hthis. unfold time.Add. cbn [time.unixNano time.loc]. f_equal.
    change (24 * time.Hour) with 86400000000000. lia.
  - intros Hsame.
    rewrite (targetWindow_end _ (time.mkTime clock Local)),
            (targetWindow_end _ (time.mkTime clock' Local)).
    rewrite Hthis, Hother, Hsame. reflexivity.
Qed.

Section Further.
Variable Local : time.Location.
Variable zoneinfo : string -> option time.Location.

Abbreviation LoadLocation := (time.LoadLocation Local zoneinfo).
Abbreviation parseICalTime := (Main.parseICalTime Local zoneinfo).
Abbreviation parseTimes := (Main.parseTimes Local zoneinfo).
Abbreviation adjustTZID := (Main.adjustTZID Local zoneinfo).
Abbreviation parseEvent := (Main.parseEvent Local zoneinfo).
Abbreviation collectEvents := (Main.collectEvents Local zoneinfo).
Abbreviation caljsonHandler := (Main.caljsonHandler Local zoneinfo).

(** ** Events that last no time (lines 171-174 and 199) *)

(** A timed event without [DTEND] has no duration.  It is returned only
    for a window that holds its instant strictly inside; when the instant
    is the boundary between two windows, it is returned for neither, so an
    event at the very start of a target day is on no day. *)
Theorem instant_event_on_boundary (vevent : ics.VEvent)
        (startProp : ics.IANAProperty) (start : time.Time) :
  ics.GetProperty vevent ics.ComponentPropertyDtStart = Some startProp ->
  ics.GetProperty vevent ics.ComponentPropertyDtEnd = None ->
  isDate (default [] (ics.ICalParameters startProp !! "VALUE")) = false ->
  parseICalTime (ics.Value startProp) startProp = Ok start ->
  (forall targetStart targetEnd event,
      parseEvent vevent targetStart targetEnd = Return (Ok (Some event)) ->
      time.unixNano targetStart < time.unixNano start < time.unixNano targetEnd
      /\ time.unixNano (Start event) = time.unixNano start
      /\ time.unixNano (End event) = time.unixNano start)
  /\ (forall before boundary after,
         time.unixNano boundary = time.unixNano start ->
         parseEvent vevent before boundary = Return (Ok None)
         /\ parseEvent vevent boundary after = Return (Ok None)).
Proof.
  intros Hstart Hend Htimed Hparsed.
  assert (Htimes : parseTimes startProp
                     (ics.GetProperty vevent ics.ComponentPropertyDtEnd)
                   = Ok (start, start, false)).
  { rewrite Hend. unfold Main.parseTimes. rewrite Htimed, Hparsed. reflexivity. }
  split.
  - intros targetStart targetEnd event.
    rewrite (parseEvent_parsed _ _ _ _ _ _ _ _ _ Hstart Htimes), Hend.
    unfold Main.onTargetDate, adjustedEnd.
    destruct (_ && _) eqn:Htest; [| discriminate].
    apply overlap_test in Htest. unfold overlaps in Htest.
    rewrite adjustTZID_unixNano in Htest.
    destruct (ics.GetProperty vevent ics.ComponentPropertyUniqueId),
             (ics.GetProperty vevent ics.ComponentPropertySummary),
             (ics.GetProperty vevent ics.ComponentPropertyDescription),
             (ics.GetProperty vevent ics.ComponentPropertyLocation);
      try discriminate.
    intros [= <-]. cbn [Start End]. rewrite adjustTZID_unixNano. lia.
  - intros before boundary after Hboundary. split;
      apply (parseEvent_absent_iff _ _ _ _ _ _ _ _ _ Hstart Htimes);
      unfold overlaps; lia.
Qed.

(** ** Values that name no zone (lines 143-159 and 217-220) *)

(** The date layout leaves the time of day at zero. *)
Lemma parse_date_midnight (value : string) (l : time.Location) (t : time.Time) :
  time.ParseInLocation "20060102" value l = Ok t ->
  exists year month day, 1 <= month <= 12
                         /\ t = time.Date year month day 0 0 0 0 l.
Proof.
  unfold time.ParseInLocation.
  rewrite (parse_zoneless _ _ _ _ zoneless_date).
  change (time.layoutChunks _ "20060102")
    with [time.stdLongYear; time.stdZeroMonth; time.stdZeroDay].
  cbn [time.parseChunks time.parseChunk].
  destruct (time.getyear value) as [[year rest]|];
    cbn -[time.Date time.daysIn Z.leb Z.ltb time.getnum]; [| discriminate].
  destruct (time.getnum rest true) as [[month rest']|];
    cbn -[time.Date time.daysIn Z.leb Z.ltb time.getnum]; [| discriminate].
  destruct ((month <=? 0) || (12 <? month)) eqn:Hmonth;
    cbn -[time.Date time.daysIn Z.leb Z.ltb time.getnum]; [discriminate |].
  apply orb_false_iff in Hmonth. destruct Hmonth as [Hlow Hhigh].
  apply Z.leb_gt in Hlow. apply Z.ltb_ge in Hhigh.
  destruct (time.getnum rest' true) as [[day rest'']|];
    cbn -[time.Date time.daysIn Z.leb Z.ltb time.getnum]; [| discriminate].
  destruct rest''; cbn -[time.Date time.daysIn Z.leb Z.ltb time.getnum];
    [| discriminate].
  destruct (_ || _); [discriminate |].
  intros [= <-]. exists year, month, day. split; [lia | reflexivity].
Qed.

Lemma Date_UTC_midnight (year month day : Z) :
  1 <= month <= 12 ->
  time.unixNano (time.Date year month day 0 0 0 0 time.UTC)
  = dayCount year month day * 86400000000000.
Proof.
  intros Hmonth.
  rewrite (Date_fixedOffset _ _ _ _ _ _ _ time.UTC 0) by (try lia; intros ?; reflexivity).
  lia.
Qed.

Lemma wallClock_loc (t : time.Time) (l : time.Location) :
  wallClock t l -> time.loc t = l.
Proof. intros (? & ? & ? & ? & ? & ? & ? & ->). reflexivity. Qed.

Lemma parse_date_utc (value : string) (t : time.Time) :
  time.ParseInLocation "20060102" value time.UTC = Ok t ->
  time.loc t = time.UTC /\ time.unixNano t mod 86400000000000 = 0.
Proof.
  intros Hparse.
  destruct (parse_date_midnight _ _ _ Hparse) as (year & month & day & Hmonth & ->).
  split; [reflexivity |].
  rewrite Date_UTC_midnight by assumption. apply Z.mod_mul. lia.
Qed.

Lemma parseTimes_date (L : time.Location) (z : string -> option time.Location)
      (startProp : ics.IANAProperty) (endProp : option ics.IANAProperty) :
  isDate (default [] (ics.ICalParameters startProp !! "VALUE")) = true ->
  Main.parseTimes L z startProp endProp
  = match time.ParseInLocation "20060102" (ics.Value startProp) time.UTC with
    | Ok start =>
      match (match endProp with
             | Some endProp =>
               time.ParseInLocation "20060102" (ics.Value endProp) time.UTC
             | None => Ok (time.Add start (24 * time.Hour))
             end) with
      | Ok end_ => Ok (start, end_, true)
      | Err e => Err e
      end
    | Err e => Err e
    end.
Proof.
  intros Hdate. unfold Main.parseTimes. rewrite Hdate.
  rewrite (Parse_zoneless _ _ _ zoneless_date).
  destruct (time.ParseInLocation _ _ _) as [start|]; [| reflexivity].
  unfold mbind, result_bind.
  destruct endProp as [endProp|]; [| reflexivity].
  rewrite (Parse_zoneless _ _ _ zoneless_date). reflexivity.
Qed.

Lemma parseTimes_timed (L : time.Location) (z : string -> option time.Location)
      (startProp : ics.IANAProperty) (endProp : option ics.IANAProperty) :
  isDate (default [] (ics.ICalParameters startProp !! "VALUE")) = false ->
  Main.parseTimes L z startProp endProp
  = match Main.parseICalTime L z (ics.Value startProp) startProp with
    | Ok start =>
      match (match endProp with
             | Some endProp => Main.parseICalTime L z (ics.Value endProp) endProp
             | None => Ok start
             end) with
      | Ok end_ => Ok (start, end_, false)
      | Err e => Err e
      end
    | Err e => Err e
    end.
Proof.
  intros Htimed. unfold Main.parseTimes. rewrite Htimed.
  destruct (Main.parseICalTime L z _ _) as [start|]; [| reflexivity].
  unfold mbind, result_bind.
  destruct endProp as [endProp|]; reflexivity.
Qed.

(** An all-day event, and a timed event whose values end in Z, are read
    without the zone of the process and without the zone database: the
    times are the same wherever the program runs, they are tagged UTC, and
    those of an all-day event are midnights of UTC. *)
Theorem times_without_zone_name (Local' : time.Location)
        (zoneinfo' : string -> option time.Location)
        (startProp : ics.IANAProperty) (endProp : option ics.IANAProperty) :
  (isDate (default [] (ics.ICalParameters startProp !! "VALUE")) = true ->
   parseTimes startProp endProp = Main.parseTimes Local' zoneinfo' startProp endProp
   /\ forall start end_ allDay,
       parseTimes startProp endProp = Ok (start, end_, allDay) ->
       allDay = true
       /\ time.loc start = time.UTC /\ time.loc end_ = time.UTC
       /\ time.unixNano start mod 86400000000000 = 0
       /\ time.unixNano end_ mod 86400000000000 = 0)
  /\ (isDate (default [] (ics.ICalParameters startProp !! "VALUE")) = false ->
      strings.HasSuffix (ics.Value startProp) "Z" = true ->
      match endProp with
      | Some endProp => strings.HasSuffix (ics.Value endProp) "Z" = true
      | None => True
      end ->
      parseTimes startProp endProp = Main.parseTimes Local' zoneinfo' startProp endProp
      /\ forall start end_ allDay,
          parseTimes startProp endProp = Ok (start, end_, allDay) ->
          allDay = false
          /\ time.loc start = time.UTC /\ time.loc end_ = time.UTC).
Proof.
  split.
  - intros Hdate. rewrite !(parseTimes_date _ _ _ _ Hdate).
    split; [reflexivity |]. intros start end_ allDay.
    destruct (time.ParseInLocation _ (ics.Value startProp) _) as [start'|] eqn:Hstart;
      [| discriminate].
    destruct (parse_date_utc _ _ Hstart) as [Hloc Hmid].
    destruct endProp as [endProp|].
    + destruct (time.ParseInLocation _ (ics.Value endProp) _) as [end'|] eqn:Hend;
        [| discriminate].
      destruct (parse_date_utc _ _ Hend) as [Hloc' Hmid'].
      intros [= <- <- <-]. auto.
    + intros [= <- <- <-]. repeat split; try assumption.
      unfold time.Add. cbn [time.unixNano].
      change (24 * time.Hour) with (1 * 86400000000000).
      rewrite Z.mod_add by lia. exact Hmid.
  - intros Htimed Hz Hend. rewrite !(parseTimes_timed _ _ _ _ Htimed).
    rewrite !(parseICalTime_utc _ _ _ _ Hz).
    assert (Hutc : forall value t,
               time.ParseInLocation "20060102T150405Z" value time.UTC = Ok t ->
               time.loc t = time.UTC).
    { intros value t Ht. apply wallClock_loc.
      exact (ParseInLocation_wallClock _ _ _ _ zoneless_utc Ht). }
    destruct (time.ParseInLocation _ (ics.Value startProp) _) as [start'|] eqn:Hstart;
      [| split; [reflexivity | discriminate]].
    destruct endProp as [endProp|].
    + rewrite !(parseICalTime_utc _ _ _ _ Hend).
      split; [reflexivity |]. intros start end_ allDay.
      destruct (time.ParseInLocation _ (ics.Value endProp) _) as [end'|] eqn:Hparse;
        [| discriminate].
      intros [= <- <- <-]. eauto.
    + split; [reflexivity |]. intros start end_ allDay [= <- <- <-]. eauto.
Qed.

(** ** The form of all-day values (lines 146-155) *)

Lemma getnum_fixed (s rest : string) (n : Z) :
  time.getnum s true = Some (n, rest) ->
  exists a b, s = String a (String b rest)
              /\ time.isDigit a = true /\ time.isDigit b = true.
Proof.
  unfold time.getnum, time.isDigit. destruct s as [|a [|b s]]; try discriminate.
  - destruct (time.digitVal a); discriminate.
  - destruct (time.digitVal a) eqn:Ha; [| discriminate].
    destruct (time.digitVal b) eqn:Hb; [| discriminate].
    intros [= _ <-]. exists a, b. rewrite Ha, Hb. auto.
Qed.

Lemma getyear_digits (s rest : string) (y : Z) :
  time.getyear s = Some (y, rest) ->
  exists a b c d, s = String a (String b (String c (String d rest)))
                  /\ time.isDigit a = true /\ time.isDigit b = true
                  /\ time.isDigit c = true /\ time.isDigit d = true.
Proof.
  unfold time.getyear, time.isDigit.
  destruct s as [|a [|b [|c [|d s]]]]; try discriminate.
  destruct (time.digitVal a) eqn:Ha; [| discriminate].
  destruct (time.digitVal b) eqn:Hb; [| discriminate].
  destruct (time.digitVal c) eqn:Hc; [| discriminate].
  destruct (time.digitVal d) eqn:Hd; [| discriminate].
  intros [= _ <-]. exists a, b, c, d. rewrite Ha, Hb, Hc, Hd. auto 10.
Qed.

Lemma parse_date_eightDigits (value : string) (l : time.Location) (t : time.Time) :
  time.ParseInLocation "20060102" value l = Ok t -> eightDigits value.
Proof.
  unfold time.ParseInLocation.
  rewrite (parse_zoneless _ _ _ _ zoneless_date).
  change (time.layoutChunks _ "20060102")
    with [time.stdLongYear; time.stdZeroMonth; time.stdZeroDay].
  cbn [time.parseChunks time.parseChunk].
  destruct (time.getyear value) as [[year rest]|] eqn:Hyear;
    cbn -[time.Date time.daysIn Z.leb Z.ltb time.getnum]; [| discriminate].
  destruct (time.getnum rest true) as [[month rest']|] eqn:Hmonth;
    cbn -[time.Date time.daysIn Z.leb Z.ltb time.getnum]; [| discriminate].
  destruct ((month <=? 0) || (12 <? month));
    cbn -[time.Date time.daysIn Z.leb Z.ltb time.getnum]; [discriminate |].
  destruct (time.getnum rest' true) as [[day rest'']|] eqn:Hday;
    cbn -[time.Date time.daysIn Z.leb Z.ltb time.getnum]; [| discriminate].
  destruct rest''; cbn -[time.Date time.daysIn Z.leb Z.ltb time.getnum];
    [| discriminate].
  intros _.
  destruct (getyear_digits _ _ _ Hyear) as (a & b & c & d & -> & Ha & Hb & Hc & Hd).
  destruct (getnum_fixed _ _ _ Hmonth) as (e & f & -> & He & Hf).
  destruct (getnum_fixed _ _ _ Hday) as (g & h & -> & Hg & Hh).
  split; [reflexivity |]. cbn [list_ascii_of_string forallb].
  rewrite Ha, Hb, Hc, Hd, He, Hf, Hg, Hh. reflexivity.
Qed.

(** The values of an all-day event are read as dates, the end as the start:
    when the times parse, each value is made of eight digits.  So an
    all-day event whose end carries a time of day, or whose value is
    written with dashes, fails and is passed over. *)
Theorem all_day_values_are_eight_digits (startProp : ics.IANAProperty)
        (endProp : option ics.IANAProperty)
        (start end_ : time.Time) (allDay : bool) :
  isDate (default [] (ics.ICalParameters startProp !! "VALUE")) = true ->
  parseTimes startProp endProp = Ok (start, end_, allDay) ->
  eightDigits (ics.Value startProp)
  /\ match endProp with
     | Some endProp => eightDigits (ics.Value endProp)
     | None => True
     end.
Proof.
  intros Hdate. rewrite (parseTimes_date _ _ _ _ Hdate).
  destruct (time.ParseInLocation _ (ics.Value startProp) _) as [start'|] eqn:Hstart;
    [| discriminate].
  split; [exact (parse_date_eightDigits _ _ _ Hstart) |].
  destruct endProp as [endProp|]; [| exact I].
  destruct (time.ParseInLocation _ (ics.Value endProp) _) as [end'|] eqn:Hend;
    [| discriminate].
  exact (parse_date_eightDigits _ _ _ Hend).
Qed.

(** ** What a returned event is made of (lines 121-212) *)

Lemma parseEvent_found (vevent : ics.VEvent) (targetStart targetEnd : time.Time)
      (event : Event) :
  parseEvent vevent targetStart targetEnd = Return (Ok (Some event)) ->
  exists startProp start end_ uid summary description location,
    ics.GetProperty vevent ics.ComponentPropertyDtStart = Some startProp
    /\ parseTimes startProp (ics.GetProperty vevent ics.ComponentPropertyDtEnd)
       = Ok (start, end_, AllDay event)
    /\ Start event = adjustTZID start startProp
    /\ End event
       = adjustedEnd Local zoneinfo end_
                     (ics.GetProperty vevent ics.ComponentPropertyDtEnd)
    /\ ics.GetProperty vevent ics.ComponentPropertyUniqueId = Some uid
    /\ ics.GetProperty vevent ics.ComponentPropertySummary = Some summary
    /\ ics.GetProperty vevent ics.ComponentPropertyDescription = Some description
    /\ ics.GetProperty vevent ics.ComponentPropertyLocation = Some location
    /\ UID event = ics.Value uid /\ Summary event = ics.Value summary
    /\ Description event = ics.Value description
    /\ Location event = ics.Value location
    /\ overlaps (Start event) (End event) targetStart targetEnd.
Proof.
  unfold Main.parseEvent.
  destruct (ics.GetProperty vevent ics.ComponentPropertyDtStart) as [startProp|];
    [| discriminate].
  destruct (parseTimes startProp _) as [[[start end_] allDay]|] eqn:Htimes;
    [| discriminate].
  fold (adjustedEnd Local zoneinfo end_
          (ics.GetProperty vevent ics.ComponentPropertyDtEnd)).
  unfold Main.onTargetDate.
  destruct (_ && _) eqn:Htest; [| discriminate].
  apply overlap_test in Htest.
  destruct (ics.GetProperty vevent ics.ComponentPropertyUniqueId) as [uid|],
           (ics.GetProperty vevent ics.ComponentPropertySummary) as [summary|],
           (ics.GetProperty vevent ics.ComponentPropertyDescription) as [description|],
           (ics.GetProperty vevent ics.ComponentPropertyLocation) as [location|];
    try discriminate.
  intros [= <-]. cbn [Start End AllDay UID Summary Description Location].
  exists startProp, start, end_, uid, summary, description, location.
  repeat split; try reflexivity; try exact Htimes; apply Htest.
Qed.

(** The zone an event's start is tagged with, on which the rendering of the
    start in the answer depends: the zone of the first TZID value when it
    resolves, whatever the form of the value; without one, UTC for an
    all-day event or a value ending in Z, the zone of the process otherwise.
    (A TZID that does not resolve is left only on all-day events and on
    values ending in Z.) *)
Theorem start_zone_tag (vevent : ics.VEvent) (startProp : ics.IANAProperty)
        (targetStart targetEnd : time.Time) (event : Event) :
  ics.GetProperty vevent ics.ComponentPropertyDtStart = Some startProp ->
  parseEvent vevent targetStart targetEnd = Return (Ok (Some event)) ->
  time.loc (Start event)
  = match ics.ICalParameters startProp !! "TZID" with
    | Some (tzid :: _) =>
      match LoadLocation tzid with
      | Ok l => l
      | Err _ => time.UTC
      end
    | _ =>
      if isDate (default [] (ics.ICalParameters startProp !! "VALUE"))
         || strings.HasSuffix (ics.Value startProp) "Z"
      then time.UTC else Local
    end.
Proof.
  intros Hstart Hevent.
  destruct (parseEvent_found _ _ _ _ Hevent)
    as (startProp' & start & end_ & _ & _ & _ & _ & Hstart' & Htimes & -> & _).
  rewrite Hstart in Hstart'. injection Hstart' as <-.
  assert (Hloc : time.loc start
                 = if isDate (default [] (ics.ICalParameters startProp !! "VALUE"))
                      || strings.HasSuffix (ics.Value startProp) "Z"
                   then time.UTC
                   else match ics.ICalParameters startProp !! "TZID" with
                        | Some (tzid :: _) =>
                          match LoadLocation tzid with
                          | Ok l => l
                          | Err _ => time.UTC
                          end
                        | _ => Local
                        end).
  { destruct (isDate _) eqn:Hdate; cbn [orb].
    - rewrite (parseTimes_date _ _ _ _ Hdate) in Htimes.
      destruct (time.ParseInLocation _ _ _) as [start'|] eqn:Hparse; [| discriminate].
      assert (Hsame : start' = start).
      { destruct (ics.GetProperty vevent ics.ComponentPropertyDtEnd) as [endProp|];
          [destruct (time.ParseInLocation _ (ics.Value endProp) _);
           [| discriminate] |];
          injection Htimes as <- _ _; reflexivity. }
      subst start'. apply (parse_date_utc _ _ Hparse).
    - rewrite (parseTimes_timed _ _ _ _ Hdate) in Htimes.
      destruct (parseICalTime _ _) as [start'|] eqn:Hparse; [| discriminate].
      assert (Hsame : start' = start).
      { destruct (ics.GetProperty vevent ics.ComponentPropertyDtEnd) as [endProp|];
          [destruct (parseICalTime (ics.Value endProp) endProp);
           [| discriminate] |];
          injection Htimes as <- _ _; reflexivity. }
      subst start'.
      destruct (strings.HasSuffix (ics.Value startProp) "Z") eqn:Hz.
      + rewrite (parseICalTime_utc _ _ _ _ Hz) in Hparse.
        apply wallClock_loc.
        exact (ParseInLocation_wallClock _ _ _ _ zoneless_utc Hparse).
      + destruct (ics.ICalParameters startProp !! "TZID") as [[|tzid rest]|] eqn:Htzid.
        * rewrite (parseICalTime_local _ _ _ _ Hz (or_intror Htzid)) in Hparse.
          apply wallClock_loc.
          exact (ParseInLocation_wallClock _ _ _ _ zoneless_naive Hparse).
        * rewrite (parseICalTime_zoned _ _ _ _ _ _ Hz Htzid) in Hparse.
          destruct (LoadLocation tzid) as [l|]; [| discriminate].
          cbn in Hparse. apply wallClock_loc.
          exact (ParseInLocation_wallClock _ _ _ _ zoneless_naive Hparse).
        * rewrite (parseICalTime_local _ _ _ _ Hz (or_introl Htzid)) in Hparse.
          apply wallClock_loc.
          exact (ParseInLocation_wallClock _ _ _ _ zoneless_naive Hparse). }
  unfold Main.adjustTZID.
  destruct (ics.ICalParameters startProp !! "TZID") as [[|tzid rest]|];
    try exact Hloc.
  destruct (LoadLocation tzid) as [l|]; [reflexivity |].
  rewrite Hloc. destruct (_ || _); reflexivity.
Qed.

(** ** The properties [parseEvent] reads (lines 123-128) *)

Lemma find_filter {A : Type} (f g : A -> bool) (l : list A) :
  (forall x, f x = true -> g x = true) ->
  find f (List.filter g l) = find f l.
Proof.
  intros Himp. induction l as [|x l IH]; [reflexivity |].
  simpl. destruct (g x) eqn:Hg; simpl.
  - destruct (f x); [reflexivity | exact IH].
  - destruct (f x) eqn:Hf; [| exact IH].
    rewrite (Himp _ Hf) in Hg. discriminate.
Qed.

Lemma GetProperty_asked (properties : list ics.IANAProperty) (name : string) :
  asked (ics.mkProperty name ∅ "") = true ->
  ics.GetProperty (ics.mkVEvent (List.filter asked properties)) name
  = ics.GetProperty (ics.mkVEvent properties) name.
Proof.
  intros Hname. unfold ics.GetProperty. cbn [ics.Properties].
  apply find_filter. intros p Hp. apply String.eqb_eq in Hp.
  unfold asked in *. cbn [ics.IANAToken] in Hname. rewrite Hp. exact Hname.
Qed.


(** ** The loop over the components (lines 93-104) *)

Lemma collectEvents_step (c : ics.Component) (components : list ics.Component)
      (targetStart targetEnd : time.Time) (events : list Event) :
  ~ faulty Local zoneinfo targetStart targetEnd c ->
  collectEvents (c :: components) targetStart targetEnd events
  = collectEvents components targetStart targetEnd
                  (events ++ match kept Local zoneinfo targetStart targetEnd c with
                             | Some event => [event]
                             | None => []
                             end).
Proof.
  intros Hsound. destruct c as [vevent|kind]; cbn [Main.collectEvents kept].
  - unfold kept.
    destruct (parseEvent vevent targetStart targetEnd) as [[[event|]|e]|msg] eqn:Hrun;
      cbn; rewrite ?app_nil_r; try reflexivity.
    exfalso. apply Hsound. exists msg. exact Hrun.
  - rewrite app_nil_r. reflexivity.
Qed.

Lemma collectEvents_sound (components : list ics.Component)
      (targetStart targetEnd : time.Time) :
  Forall (fun c => ~ faulty Local zoneinfo targetStart targetEnd c) components ->
  forall events,
    collectEvents components targetStart targetEnd events
    = Return (events ++ omap (kept Local zoneinfo targetStart targetEnd) components).
Proof.
  induction 1 as [|c components Hc _ IH]; intros events.
  - cbn. rewrite app_nil_r. reflexivity.
  - rewrite (collectEvents_step _ _ _ _ _ Hc), IH, <- app_assoc.
    cbn [omap list_omap]. destruct (kept Local zoneinfo targetStart targetEnd c); reflexivity.
Qed.

Lemma collectEvents_faulty (components : list ics.Component)
      (targetStart targetEnd : time.Time) :
  Exists (faulty Local zoneinfo targetStart targetEnd) components ->
  forall events,
    exists msg, collectEvents components targetStart targetEnd events = Panic msg.
Proof.
  induction components as [|c components IH]; intros Hfaulty events.
  - inversion Hfaulty.
  - destruct c as [vevent|kind]; cbn [Main.collectEvents].
    + assert (Htail : (exists msg, parseEvent vevent targetStart targetEnd = Panic msg)
                      \/ Exists (faulty Local zoneinfo targetStart targetEnd) components).
      { inversion Hfaulty; [left | right]; assumption. }
      destruct (parseEvent vevent targetStart targetEnd) as [[[event|]|e]|msg] eqn:Hrun;
        cbn.
      1-3: destruct Htail as [[msg' Hmsg]|Htail];
        [discriminate | apply IH; exact Htail].
      eauto.
    + apply IH. inversion Hfaulty as [? ? Hhead|]; subst; [destruct Hhead | assumption].
Qed.

(** The loop returns exactly when [parseEvent] panics on no event of the
    document; it then returns, after the events it was given, the events
    [parseEvent] returns, in the order of the document, the components that
    are no events and the events that fail or fall outside the window being
    passed over.  One event on which [parseEvent] panics, wherever it
    stands, makes the loop and the handler panic. *)
Theorem loop_outcome (components : list ics.Component)
        (targetStart targetEnd : time.Time) (events : list Event) :
  (Forall (fun c => ~ faulty Local zoneinfo targetStart targetEnd c) components ->
   collectEvents components targetStart targetEnd events
   = Return (events ++ omap (kept Local zoneinfo targetStart targetEnd) components))
  /\ (Exists (faulty Local zoneinfo targetStart targetEnd) components ->
      exists msg,
        collectEvents components targetStart targetEnd events = Panic msg)
  /\ ((exists collected,
          collectEvents components targetStart targetEnd events = Return collected)
      <-> Forall (fun c => ~ faulty Local zoneinfo targetStart targetEnd c) components).
Proof.
  split; [| split].
  - intros Hsound. apply collectEvents_sound, Hsound.
  - intros Hfaulty. apply collectEvents_faulty, Hfaulty.
  - split.
    + intros [collected Hreturn]. apply Forall_forall. intros c Hin Hc.
      destruct (collectEvents_faulty components targetStart targetEnd
                  ltac:(apply Exists_exists; eauto) events) as [msg Hpanic].
      congruence.
    + intros Hsound. eexists. apply collectEvents_sound, Hsound.
Qed.

(** A document walked in two parts: the second part goes on from what the
    first has collected, and is not walked when the first panics. *)
Theorem loop_composes (first second : list ics.Component)
        (targetStart targetEnd : time.Time) (events : list Event) :
  collectEvents (first ++ second) targetStart targetEnd events
  = (collected ← collectEvents first targetStart targetEnd events;
     collectEvents second targetStart targetEnd collected).
Proof.
  revert events. induction first as [|c first IH]; intros events; [reflexivity |].
  destruct c as [vevent|kind]; cbn [app Main.collectEvents]; [| apply IH].
  destruct (parseEvent vevent targetStart targetEnd) as [[[event|]|e]|msg];
    cbn; try apply IH. reflexivity.
Qed.

Lemma kept_overlaps (targetStart targetEnd : time.Time) (c : ics.Component)
      (event : Event) :
  kept Local zoneinfo targetStart targetEnd c = Some event ->
  overlaps (Start event) (End event) targetStart targetEnd.
Proof.
  destruct c as [vevent|kind]; [| discriminate]. unfold kept.
  destruct (parseEvent vevent targetStart targetEnd) as [[[event'|]|e]|msg] eqn:Hrun;
    try discriminate.
  intros [= <-].
  destruct (parseEvent_found _ _ _ _ Hrun)
    as (? & ? & ? & ? & ? & ? & ? & _ & _ & _ & _ & _ & _ & _ & _ & _ & _ & _ & _ & Hin).
  exact Hin.
Qed.

Lemma length_omap_le {A B : Type} (f : A -> option B) (l : list A) :
  (length (omap f l) <= length l)%nat.
Proof.
  induction l as [|x l IH]; cbn; [lia |]. destruct (f x); cbn; lia.
Qed.

(** What the handler hands to the encoder, when [parseEvent] panics on no
    event of the document: the events [parseEvent] returns for the target
    day and no other, each once for each component it comes from, in some
    order; each of them overlaps the target day; there are no more of them
    than components. *)
Theorem handler_output (clock dayOffset : Z) (components : list ics.Component) :
  let targetStart :=
    fst (Main.targetWindow Local (time.mkTime clock Local) dayOffset) in
  let targetEnd :=
    snd (Main.targetWindow Local (time.mkTime clock Local) dayOffset) in
  Forall (fun c => ~ faulty Local zoneinfo targetStart targetEnd c) components ->
  exists output,
    caljsonHandler clock dayOffset components = Return output
    /\ Permutation (omap (kept Local zoneinfo targetStart targetEnd) components) output
    /\ (forall event,
           event ∈ output
           <-> exists c, c ∈ components /\ kept Local zoneinfo targetStart targetEnd c = Some event)
    /\ (forall event,
           event ∈ output ->
           overlaps (Start event) (End event) targetStart targetEnd)
    /\ (length output <= length components)%nat.
Proof.
  intros targetStart targetEnd Hsound.
  exists (Main.sortEvents (omap (kept Local zoneinfo targetStart targetEnd) components)).
  assert (Hperm := sortEvents_perm (omap (kept Local zoneinfo targetStart targetEnd) components)).
  assert (Hmem : forall event,
             event ∈ Main.sortEvents (omap (kept Local zoneinfo targetStart targetEnd) components)
             <-> exists c, c ∈ components /\ kept Local zoneinfo targetStart targetEnd c = Some event).
  { intros event. rewrite <- Hperm. apply list_elem_of_omap. }
  split; [| split; [exact Hperm | split; [exact Hmem | split]]].
  - unfold Main.caljsonHandler.
    change (Main.targetWindow Local (time.mkTime clock Local) dayOffset)
      with (targetStart, targetEnd).
    cbv iota beta.
    rewrite (collectEvents_sound _ _ _ Hsound). reflexivity.
  - intros event Hin. apply Hmem in Hin. destruct Hin as (c & _ & Hkept).
    exact (kept_overlaps _ _ _ _ Hkept).
  - rewrite <- (Permutation_length Hperm). apply length_omap_le.
Qed.
End Further.

(** ** The request (lines 29-118 of src/main.go, 31-111 of part_000) *)

Lemma QueryUnescape_plain (s : string) :
  contains "%" s = false -> url.QueryUnescape s = inr (plusToBlank s).
Proof.
  induction s as [|c s IH]; [reflexivity |]. cbn [contains url.QueryUnescape plusToBlank].
  intros Hplain. apply orb_false_iff in Hplain. destruct Hplain as [Hc Hs].
  rewrite Hc, (IH Hs). reflexivity.
Qed.

Lemma plusToBlank_plain (s : string) :
  contains "+" s = false -> plusToBlank s = s.
Proof.
  induction s as [|c s IH]; [reflexivity |]. cbn [contains plusToBlank].
  intros Hplain. apply orb_false_iff in Hplain. destruct Hplain as [Hc Hs].
  rewrite Hc, (IH Hs). reflexivity.
Qed.

(** The two variants walk the calendar alike. *)
Lemma walks_agree (Local : time.Location) (zoneinfo : string -> option time.Location)
      (clock dayOffset : Z) (components : list ics.Component) :
  Gin.caljsonHandler Local zoneinfo clock dayOffset components
  = Main.caljsonHandler Local zoneinfo clock dayOffset components.
Proof.
  assert (Hevent : forall vevent targetStart targetEnd,
             Gin.parseEvent Local zoneinfo vevent targetStart targetEnd
             = Main.parseEvent Local zoneinfo vevent targetStart targetEnd).
  { intros. reflexivity. }
  unfold Main.caljsonHandler, Gin.caljsonHandler.
  change (Gin.targetWindow Local (time.mkTime clock Local) dayOffset)
    with (Main.targetWindow Local (time.mkTime clock Local) dayOffset).
  destruct (Main.targetWindow _ _ _) as [targetStart targetEnd].
  replace (Gin.collectEvents Local zoneinfo components targetStart targetEnd [])
    with (Main.collectEvents Local zoneinfo components targetStart targetEnd []);
    [reflexivity |].
  generalize (@nil Event) as events.
  induction components as [|[vevent|kind] components IH]; intros events;
    cbn [Main.collectEvents Gin.collectEvents]; [reflexivity | | apply IH].
  change (Gin.parseEvent Local zoneinfo vevent targetStart targetEnd)
    with (Main.parseEvent Local zoneinfo vevent targetStart targetEnd).
  destruct (Main.parseEvent _ _ _ _ _) as [[[event|]|e]|msg]; cbn; auto.
Qed.

Section Server.
Variable Local : time.Location.
Variable zoneinfo : string -> option time.Location.

Abbreviation mainHandler := (MainServer.caljsonHandler Local zoneinfo).
Abbreviation ginHandler := (GinServer.caljsonHandler Local zoneinfo).

(** A request answered with status 400 is answered so before anything is
    fetched: the answer is the same whatever the network, the parser of the
    calendar and the clock would give, and its message is one of three. *)
Theorem bad_request_needs_no_fetch
        (http_Get http_Get' : string -> result http.Response)
        (ParseCalendar ParseCalendar' : string -> result (list ics.Component))
        (clock clock' : Z)
        (query : gmap string (list string)) (message : string) :
  mainHandler http_Get ParseCalendar clock query
  = Return (http.Error message http.StatusBadRequest) ->
  mainHandler http_Get' ParseCalendar' clock' query
  = Return (http.Error message http.StatusBadRequest)
  /\ (message = "Missing 'ics' parameter"
      \/ message = "Invalid 'day' parameter"
      \/ message = "Invalid 'ics' URL").
Proof.
  unfold MainServer.caljsonHandler.
  destruct (String.eqb (url.Get query "ics") ""); [intros [= <-]; auto |].
  destruct (strconv.Atoi _) as [err|dayOffset]; [intros [= <-]; auto |].
  destruct (url.QueryUnescape _) as [err|decoded]; [intros [= <-]; auto |].
  intros Hanswer. exfalso. revert Hanswer.
  destruct (http_Get decoded) as [resp|]; [| discriminate].
  destruct (negb _); [discriminate |].
  destruct (http.Body resp) as [icsData|]; [| discriminate].
  destruct (ParseCalendar icsData) as [components|]; [| discriminate].
  destruct (Main.caljsonHandler _ _ _ _ _); discriminate.
Qed.


(** The document is fetched from the [ics] parameter unescaped once more
    (the query of the request was unescaped already when it was parsed):
    the answer depends on the network only through what it gives for that
    URL.  For a parameter without percent sign that URL is the parameter
    with a blank for every plus sign. *)
Theorem fetches_unescaped_url
        (http_Get http_Get' : string -> result http.Response)
        (ParseCalendar : string -> result (list ics.Component))
        (clock : Z) (query : gmap string (list string)) (decoded : string) :
  url.QueryUnescape (url.Get query "ics") = inr decoded ->
  http_Get decoded = http_Get' decoded ->
  mainHandler http_Get ParseCalendar clock query
  = mainHandler http_Get' ParseCalendar clock query
  /\ (contains "%" (url.Get query "ics") = false ->
      decoded = plusToBlank (url.Get query "ics"))
  /\ (contains "%" (url.Get query "ics") = false ->
      contains "+" (url.Get query "ics") = false ->
      decoded = url.Get query "ics").
Proof.
  intros Hdecoded Hsame. split; [| split].
  - unfold MainServer.caljsonHandler. rewrite Hdecoded, Hsame. reflexivity.
  - intros Hplain. rewrite (QueryUnescape_plain _ Hplain) in Hdecoded.
    congruence.
  - intros Hplain Hplus. rewrite (QueryUnescape_plain _ Hplain) in Hdecoded.
    rewrite (plusToBlank_plain _ Hplus) in Hdecoded. congruence.
Qed.

(** In src/main.go a [day] parameter that is absent, or whose first value is
    empty, counts as [day=0]. *)
Theorem empty_day_is_today
        (http_Get : string -> result http.Response)
        (ParseCalendar : string -> result (list ics.Component))
        (clock : Z) (query : gmap string (list string)) :
  url.Get query "day" = "" ->
  mainHandler http_Get ParseCalendar clock query
  = mainHandler http_Get ParseCalendar clock (<["day" := ["0"]]> query).
Proof.
  intros Hday. unfold MainServer.caljsonHandler, url.Get in *.
  rewrite lookup_insert_eq, lookup_insert_ne by discriminate.
  rewrite Hday. reflexivity.
Qed.


End Server.

(** ** The further properties on examples *)

Lemma tokyo_fixedOffset : fixedOffset Samples.tokyo 32400.
Proof. intros sec. reflexivity. Qed.

(** From noon of 1 March 2024 in Tokyo, [day=-1] is the 29th of February. *)
Lemma target_day_in_fixed_zone_witness :
  time.date (fst (Main.targetWindow Samples.tokyo
                    (time.mkTime (Samples.noon Samples.tokyo 1) Samples.tokyo)
                    (-1)))
  = (2024, 2, 29).
Proof.
  pose proof (target_day_in_fixed_zone Samples.tokyo 32400
                (Samples.noon Samples.tokyo 1) (-1)
                tokyo_fixedOffset ltac:(lia)) as Hday.
  cbv zeta in Hday. destruct Hday as (_ & _ & _ & _ & Hdate).
  rewrite Hdate. vm_compute. reflexivity.
Defined.

Lemma target_days_tile_witness :
  fst (Main.targetWindow Samples.tokyo
         (time.mkTime (Samples.noon Samples.tokyo 1) Samples.tokyo) (0 + 1))
  = snd (Main.targetWindow Samples.tokyo
           (time.mkTime (Samples.noon Samples.tokyo 1) Samples.tokyo) 0).
Proof.
  exact (proj1 (target_days_tile Samples.tokyo 32400
                  (Samples.noon Samples.tokyo 1) (Samples.noon Samples.tokyo 1) 0
                  tokyo_fixedOffset ltac:(lia))).
Defined.

(** Where the zone has transitions the target day is still 24 hours long:
    in New York on 3 November 2024, a day of 25 hours, the window of [day=0]
    ends at 23:00 and a clock reading of 23:30 lies outside it. *)
Example target_day_on_a_long_day :
  let clock := time.unixNano (time.Date 2024 11 4 4 30 0 0 time.UTC) in
  let window := Main.targetWindow Samples.newYork
                                  (time.mkTime clock Samples.newYork) 0 in
  time.date (time.mkTime clock Samples.newYork) = (2024, 11, 3)
  /\ time.unixNano (fst window)
     = time.unixNano (time.Date 2024 11 3 4 0 0 0 time.UTC)
  /\ time.unixNano (snd window) < clock.
Proof. repeat split; vm_compute; reflexivity. Qed.

(** An event at 00:00 UTC of 1 March 2024 without end is neither on the
    29th of February nor on the 1st of March. *)
Lemma instant_event_on_boundary_witness :
  Main.parseEvent time.UTC Samples.zoneinfo Requests.midnight
                  (time.Date 2024 2 29 0 0 0 0 time.UTC)
                  (time.Date 2024 3 1 0 0 0 0 time.UTC)
  = Return (Ok None)
  /\ Main.parseEvent time.UTC Samples.zoneinfo Requests.midnight
                     (time.Date 2024 3 1 0 0 0 0 time.UTC)
                     (time.Date 2024 3 2 0 0 0 0 time.UTC)
     = Return (Ok None).
Proof.
  refine (proj2 (instant_event_on_boundary time.UTC Samples.zoneinfo
                   Requests.midnight
                   (Samples.prop "DTSTART" "20240301T000000Z")
                   (time.Date 2024 3 1 0 0 0 0 time.UTC) _ _ _ _)
                _ (time.Date 2024 3 1 0 0 0 0 time.UTC) _ _);
    vm_compute; reflexivity.
Defined.

(** The all-day event of 1 March reads the same in Tokyo and in New York. *)
Lemma times_without_zone_name_witness :
  Main.parseTimes Samples.tokyo Samples.zoneinfo
                  (Samples.propWith "DTSTART" "VALUE" "DATE" "20240301") None
  = Main.parseTimes Samples.newYork (fun _ => None)
                    (Samples.propWith "DTSTART" "VALUE" "DATE" "20240301") None.
Proof.
  refine (proj1 (proj1 (times_without_zone_name Samples.tokyo Samples.zoneinfo
                          Samples.newYork (fun _ => None) _ None) _)).
  vm_compute; reflexivity.
Defined.

(** [DTSTART;TZID=Asia/Tokyo:20240301T100000] on a server in UTC: the start
    is tagged with the zone of Tokyo. *)
Lemma start_zone_tag_witness :
  let at10 := time.In (time.Date 2024 3 1 1 0 0 0 time.UTC) Samples.tokyo in
  let event := mkEvent "zoned" "Zoned" "" "Room 1" at10 at10 false in
  Main.parseEvent time.UTC Samples.zoneinfo (Samples.zoned "Asia/Tokyo")
                  (fst (Samples.march time.UTC 1)) (snd (Samples.march time.UTC 1))
  = Return (Ok (Some event))
  /\ time.loc (Start event) = Samples.tokyo.
Proof.
  intros at10 event.
  assert (Hevent : Main.parseEvent time.UTC Samples.zoneinfo
                     (Samples.zoned "Asia/Tokyo")
                     (fst (Samples.march time.UTC 1))
                     (snd (Samples.march time.UTC 1))
                   = Return (Ok (Some event))).
  { vm_compute; reflexivity. }
  split; [exact Hevent |].
  exact (start_zone_tag time.UTC Samples.zoneinfo (Samples.zoned "Asia/Tokyo")
           (Samples.propWith "DTSTART" "TZID" "Asia/Tokyo" "20240301T100000")
           _ _ event ltac:(vm_compute; reflexivity) Hevent).
Defined.

(** The walk of [Requests.calendar] for 1 March 2024 keeps the two events of
    that day, in the order of the document. *)
Lemma sample_calendar_sound :
  Forall (fun c => ~ faulty time.UTC Samples.zoneinfo
                           (fst (Samples.march time.UTC 1))
                           (snd (Samples.march time.UTC 1)) c)
         Requests.calendar.
Proof.
  repeat constructor; cbn [faulty]; try tauto;
    intros [msg Hmsg]; vm_compute in Hmsg; discriminate.
Qed.

Lemma loop_outcome_witness :
  (collected ← Main.collectEvents time.UTC Samples.zoneinfo Requests.calendar
                 (fst (Samples.march time.UTC 1))
                 (snd (Samples.march time.UTC 1)) [];
   Return (map UID collected))
  = Return ["review"; "standup"].
Proof.
  rewrite (proj1 (loop_outcome time.UTC Samples.zoneinfo Requests.calendar
                    (fst (Samples.march time.UTC 1))
                    (snd (Samples.march time.UTC 1)) [])
                 sample_calendar_sound).
  vm_compute. reflexivity.
Defined.

Lemma handler_output_witness :
  exists output,
    Main.caljsonHandler time.UTC Samples.zoneinfo (Samples.noon time.UTC 1) 0
                        Requests.calendar
    = Return output
    /\ (length output <= 4)%nat.
Proof.
  destruct (handler_output time.UTC Samples.zoneinfo (Samples.noon time.UTC 1) 0
              Requests.calendar sample_calendar_sound)
    as (output & Hreturn & _ & _ & _ & Hlength).
  exists output. split; [exact Hreturn | exact Hlength].
Defined.

(** [day=tomorrow] is refused whether the network is there or not. *)
Lemma bad_request_needs_no_fetch_witness :
  MainServer.caljsonHandler time.UTC Samples.zoneinfo Requests.online
    Requests.parser (Samples.noon time.UTC 1)
    (Requests.request Requests.feed "tomorrow")
  = Return (http.Error "Invalid 'day' parameter" http.StatusBadRequest).
Proof.
  refine (proj1 (bad_request_needs_no_fetch time.UTC Samples.zoneinfo
                   Requests.offline Requests.online
                   Requests.noParser Requests.parser
                   0 (Samples.noon time.UTC 1)
                   (Requests.request Requests.feed "tomorrow")
                   "Invalid 'day' parameter" _)).
  vm_compute; reflexivity.
Defined.


(** A feed URL with a plus sign is fetched with a blank in its place. *)
Lemma fetches_unescaped_url_witness :
  url.QueryUnescape (url.Get (Requests.request "https://example.org/a+b.ics" "0") "ics")
  = inr "https://example.org/a b.ics"
  /\ MainServer.caljsonHandler time.UTC Samples.zoneinfo Requests.online
       Requests.parser 0 (Requests.request "https://example.org/a+b.ics" "0")
     = MainServer.caljsonHandler time.UTC Samples.zoneinfo
         (fun u => if String.eqb u "https://example.org/a b.ics"
                   then Requests.online u else Requests.offline u)
         Requests.parser 0 (Requests.request "https://example.org/a+b.ics" "0").
Proof.
  assert (Hdecoded : url.QueryUnescape
                       (url.Get (Requests.request "https://example.org/a+b.ics" "0")
                                "ics")
                     = inr "https://example.org/a b.ics").
  { vm_compute; reflexivity. }
  split; [exact Hdecoded |].
  refine (proj1 (fetches_unescaped_url time.UTC Samples.zoneinfo _ _ _ _ _ _
                   Hdecoded _)).
  vm_compute; reflexivity.
Defined.

(** [day=] with nothing after the sign: today in src/main.go, refused in
    part_000. *)
Lemma empty_day_is_today_witness :
  MainServer.caljsonHandler time.UTC Samples.zoneinfo Requests.online
    Requests.parser (Samples.noon time.UTC 1) (Requests.request Requests.feed "")
  = MainServer.caljsonHandler time.UTC Samples.zoneinfo Requests.online
      Requests.parser (Samples.noon time.UTC 1)
      (<["day" := ["0"]]> (Requests.request Requests.feed "")).
Proof.
  refine (empty_day_is_today time.UTC Samples.zoneinfo _ _ _ _ _).
  vm_compute; reflexivity.
Defined.


(** The all-day event of 1 March, written [20240301]. *)
Lemma all_day_values_are_eight_digits_witness :
  eightDigits "20240301".
Proof.
  refine (proj1 (all_day_values_are_eight_digits time.UTC Samples.zoneinfo
                   (Samples.propWith "DTSTART" "VALUE" "DATE" "20240301") None
                   (time.Date 2024 3 1 0 0 0 0 time.UTC)
                   (time.Date 2024 3 2 0 0 0 0 time.UTC) true _ _));
    vm_compute; reflexivity.
Defined.
